(** * manage-thorium.py: install, update or remove the Thorium browser

    A shallow embedding of [manage-thorium.py].  The script is a command
    dispatcher over four wrappers around external collaborators (a
    subprocess runner, an HTTP client, the file system).  The collaborators
    are a [world] of oracles; every call the script makes is recorded, in
    order, in a history of [event]s, and a Python exception is a [Raise]
    result that propagates through [bind] until a [try_except] catches it. *)

From Stdlib Require Import String Ascii List ZArith Lia Bool.
Import ListNotations.
Open Scope string_scope.
Open Scope list_scope.

(** ** Python strings

    A [str] is a [string]; a character is a code point below 256. *)

Module PyStr.

(** [str.isspace] on one character: TAB..CR, FS..US, SPACE, NEL, NBSP. *)
Definition isspace (c : ascii) : bool :=
  let n := nat_of_ascii c in
  ((9 <=? n) && (n <=? 13) || (28 <=? n) && (n <=? 32)
   || (n =? 133) || (n =? 160))%nat.

(** [s.lstrip()] *)
Fixpoint lstrip (s : string) : string :=
  match s with
  | EmptyString => EmptyString
  | String c s' => if isspace c then lstrip s' else s
  end.

(** [s.rstrip()] *)
Fixpoint rstrip (s : string) : string :=
  match s with
  | EmptyString => EmptyString
  | String c s' =>
      match rstrip s' with
      | EmptyString => if isspace c then EmptyString else String c EmptyString
      | r => String c r
      end
  end.

(** [s.strip()] *)
Definition strip (s : string) : string := rstrip (lstrip s).

(** [s.startswith(p)] *)
Fixpoint startswith (s p : string) : bool :=
  match p, s with
  | EmptyString, _ => true
  | String _ _, EmptyString => false
  | String a p', String b s' => Ascii.eqb b a && startswith s' p'
  end.

(** [s.endswith(suffix)] *)
Definition endswith (s suffix : string) : bool :=
  let n := String.length s in
  let m := String.length suffix in
  (m <=? n)%nat && (substring (n - m) m s =? suffix).

(** [s.split()]: the maximal runs of non-whitespace characters. *)
Fixpoint split_ws (s : string) : list string :=
  match s with
  | EmptyString => []
  | String c s' =>
      if isspace c then split_ws s'
      else
        match s' with
        | EmptyString => [String c EmptyString]
        | String c' _ =>
            if isspace c' then String c EmptyString :: split_ws s'
            else
              match split_ws s' with
              | f :: fs => String c f :: fs
              | [] => [String c EmptyString]
              end
        end
  end.

(** [s.split(sep)] for a one-character separator. *)
Fixpoint split (s : string) (sep : ascii) : list string :=
  match s with
  | EmptyString => [EmptyString]
  | String c s' =>
      if Ascii.eqb c sep then EmptyString :: split s' sep
      else
        match split s' sep with
        | f :: fs => String c f :: fs
        | [] => [String c EmptyString]
        end
  end.

(** [sep in s] for a character. *)
Fixpoint contains (s : string) (sep : ascii) : bool :=
  match s with
  | EmptyString => false
  | String c s' => Ascii.eqb c sep || contains s' sep
  end.

(** [posixpath.join(a, b)] *)
Definition os_path_join (a b : string) : string :=
  if startswith b "/" then b
  else if (a =? EmptyString) || endswith a "/" then a ++ b
  else a ++ "/" ++ b.

End PyStr.
Import PyStr.

(** ** Exceptions, results and indexing *)

Inductive exn : Type :=
| CalledProcessError
| FileNotFoundError
| IndexError
| HTTPError
| ConnectionError
| OSError.

Inductive result (A : Type) : Type :=
| Ok (a : A)
| Raise (e : exn).
Arguments Ok {A} a.
Arguments Raise {A} e.

(** [l[i]], with Python's negative indices. *)
Definition getitem {A : Type} (l : list A) (i : Z) : result A :=
  let n := Z.of_nat (List.length l) in
  let j := if (i <? 0)%Z then (i + n)%Z else i in
  if ((j <? 0) || (n <=? j))%Z then Raise IndexError
  else
    match nth_error l (Z.to_nat j) with
    | Some x => Ok x
    | None => Raise IndexError
    end.

(** ** The outside world *)

(** What the script does to the outside, in order. *)
Inductive event : Type :=
| EvPrint (line : string)                    (* print(line) *)
| EvRun (argv : list string)                 (* subprocess.run(argv, ...) *)
| EvGet (url : string) (stream : bool)       (* requests.get(url, stream=...) *)
| EvOpen (path : string)                     (* open(path, 'wb') *)
| EvWrite (path : string) (chunk : string).  (* f.write(chunk) *)

Definition history := list event.

(** The outcome of launching a process. *)
Inductive proc_outcome : Type :=
| NoSuchFile                               (* the executable is missing *)
| Exited (returncode : Z) (stdout : string).

(** A release asset and the body of the latest-release endpoint, at the
    schema the script reads: [release_data] is an object whose [assets],
    when the key is there, is a list of objects with a [name] and a
    [browser_download_url], both strings. *)
Record asset : Type := {
  name : string;
  browser_download_url : string
}.

Record release_data : Type := {
  assets : option (list asset)             (* the key may be missing *)
}.

Record response : Type := {
  status_code : Z;
  json : release_data;                     (* response.json() *)
  iter_content : list string               (* the chunks of the body *)
}.

Inductive http_outcome : Type :=
| Unreachable
| Response (r : response).

(** The oracles may answer differently as the run proceeds: each sees the
    history up to the call. *)
Record world : Type := {
  subprocess : history -> list string -> proc_outcome;
  http : history -> string -> http_outcome;
  can_open_wb : history -> string -> bool;
  gettempdir : string
}.

Definition with_tempdir (t : string) (w : world) : world :=
  {| subprocess := subprocess w; http := http w;
     can_open_wb := can_open_wb w; gettempdir := t |}.

(** ** The monad of the script: reader of the world, state of the history,
    exceptions. *)

Definition M (A : Type) : Type := world -> history -> result A * history.

Definition ret {A : Type} (a : A) : M A := fun _ h => (Ok a, h).

Definition raise {A : Type} (e : exn) : M A := fun _ h => (Raise e, h).

Definition bind {A B : Type} (m : M A) (f : A -> M B) : M B :=
  fun w h =>
    match m w h with
    | (Ok a, h') => f a w h'
    | (Raise e, h') => (Raise e, h')
    end.

Notation "x <- m ;; k" := (bind m (fun x => k))
  (at level 61, m at next level, right associativity).
Notation "m ;;; k" := (bind m (fun _ => k))
  (at level 61, right associativity).

(** [try: body except <handler's domain>: handler]. *)
Definition try_except {A : Type} (body : M A) (handler : exn -> option (M A))
  : M A :=
  fun w h =>
    match body w h with
    | (Ok a, h') => (Ok a, h')
    | (Raise e, h') =>
        match handler e with
        | Some k => k w h'
        | None => (Raise e, h')
        end
    end.

Definition lift {A : Type} (r : result A) : M A := fun _ h => (r, h).

Definition emit (e : event) : M unit := fun _ h => (Ok tt, h ++ [e]).

Definition print (line : string) : M unit := emit (EvPrint line).

(** [subprocess.run(argv, check=True)]; the value is the captured stdout. *)
Definition subprocess_run (argv : list string) : M string :=
  fun w h =>
    match subprocess w h argv with
    | NoSuchFile => (Raise FileNotFoundError, h ++ [EvRun argv])
    | Exited rc out =>
        if (rc =? 0)%Z then (Ok out, h ++ [EvRun argv])
        else (Raise CalledProcessError, h ++ [EvRun argv])
    end.

(** [requests.get(url, stream=stream)] *)
Definition requests_get (url : string) (stream : bool) : M response :=
  fun w h =>
    match http w h url with
    | Unreachable => (Raise ConnectionError, h ++ [EvGet url stream])
    | Response r => (Ok r, h ++ [EvGet url stream])
    end.

(** The statuses for which [r.raise_for_status()] raises: 4xx and 5xx. *)
Definition error_status (r : response) : bool :=
  ((400 <=? status_code r) && (status_code r <? 600))%Z.

(** [r.raise_for_status()] *)
Definition raise_for_status (r : response) : M unit :=
  if error_status r then raise HTTPError else ret tt.

(** [open(path, 'wb')] *)
Definition open_wb (path : string) : M unit :=
  fun w h =>
    if can_open_wb w h path then (Ok tt, h ++ [EvOpen path])
    else (Raise OSError, h ++ [EvOpen path]).

(** [for x in xs: body(x)] *)
Fixpoint for_each {A : Type} (xs : list A) (body : A -> M unit) : M unit :=
  match xs with
  | [] => ret tt
  | x :: xs' => body x ;;; for_each xs' body
  end.

(** [tempfile.gettempdir()] *)
Definition tempfile_gettempdir : M string := fun w h => (Ok (gettempdir w), h).

(** ** The script *)

(** The command line of the version probe. *)
Definition probe_argv : list string := ["thorium-browser"; "--version"].

(** [get_installed_version], lines 33 to 48.  The [return] inside [try]
    is the [Some] of the body; falling out of the [try], or out of a
    handler, reaches the final [return None]. *)
Definition get_installed_version : M (option string) :=
  try_except
    (stdout <- subprocess_run probe_argv ;;
     let version_line := strip stdout in
     if startswith version_line "Thorium" then
       v <- lift (getitem (split_ws version_line) 1) ;;
       ret (Some v)
     else ret None)
    (fun e =>
       match e with
       | CalledProcessError =>
           Some (print "Thorium browser is not installed or unable to get version." ;;;
                 ret None)
       | FileNotFoundError =>
           Some (print "Thorium browser is not installed." ;;; ret None)
       | _ => None
       end).

(** [install_deb], lines 50 to 61.  Only the primary invocation is inside
    the [try]; the two commands of the handler are not protected. *)
Definition install_deb (file_path : string) : M unit :=
  try_except
    (subprocess_run ["sudo"; "nala"; "install"; file_path] ;;; ret tt)
    (fun e =>
       match e with
       | CalledProcessError =>
           Some (print "Nala failed to install the package. Attempting with dpkg..." ;;;
                 subprocess_run ["sudo"; "dpkg"; "-i"; file_path] ;;;
                 subprocess_run ["sudo"; "nala"; "install"; "-f"] ;;;
                 ret tt)
       | _ => None
       end).

(** [remove_package], lines 63 to 73. *)
Definition remove_package (package_name : string) : M unit :=
  try_except
    (subprocess_run ["sudo"; "nala"; "remove"; package_name] ;;; ret tt)
    (fun e =>
       match e with
       | CalledProcessError =>
           Some (print "Nala failed to remove the package. Attempting with dpkg..." ;;;
                 subprocess_run ["sudo"; "dpkg"; "-r"; package_name] ;;;
                 ret tt)
       | _ => None
       end).

(** [download_file], lines 75 to 91.  The writes of the chunks are taken
    to succeed once the file is open. *)
Definition download_file (url destination_folder : string) : M string :=
  local_filename <- lift (getitem (split url "/") (-1)) ;;
  let path := os_path_join destination_folder local_filename in
  r <- requests_get url true ;;
  raise_for_status r ;;;
  open_wb path ;;;
  for_each (iter_content r) (fun chunk => emit (EvWrite path chunk)) ;;;
  ret path.

(** The loop of [get_latest_deb_release]: it has no effect but its return. *)
Fixpoint scan_assets (l : list asset) : option string :=
  match l with
  | [] => None
  | a :: rest =>
      if endswith (name a) ".deb" then Some (browser_download_url a)
      else scan_assets rest
  end.

(** The f-string of line 102. *)
Definition api_url (owner repo : string) : string :=
  "https://api.github.com/repos/" ++ owner ++ "/" ++ repo ++ "/releases/latest".

(** [get_latest_deb_release], lines 93 to 111. *)
Definition get_latest_deb_release (owner repo : string) : M (option string) :=
  resp <- requests_get (api_url owner repo) false ;;
  if negb (status_code resp =? 200)%Z then
    print "Failed to fetch release data from GitHub API" ;;; ret None
  else
    let release := json resp in
    ret (scan_assets (match assets release with Some l => l | None => [] end)).

(** The subcommand left by [argparse]: the subparsers are required, so
    [args.command] is one of the three. *)
Inductive command : Type := Install | Remove | Update.

Definition is_update (c : command) : bool :=
  match c with Update => true | _ => false end.

(** [str(x)] inside an f-string, for [x] a string or [None]. *)
Definition fmt (o : option string) : string :=
  match o with Some s => s | None => "None" end.

(** [installed_version == latest_version]; [None] equals no string. *)
Definition version_eq (installed : option string) (latest : string) : bool :=
  match installed with
  | Some v => (v =? latest)
  | None => false
  end.

(** [x is None] *)
Definition is_None {A : Type} (o : option A) : bool :=
  match o with None => true | Some _ => false end.

(** The literal of line 153. *)
Definition destination_folder : string := "/home/kai/projects/renew-thorium".

(** [main], lines 113 to 159, after [parse_args].  [temp_dir] is bound at
    line 130 and not used afterwards; [if not latest_deb_url] holds for
    [None] and for the empty string. *)
Definition main (c : command) : M unit :=
  temp_dir <- tempfile_gettempdir ;;
  match c with
  | Install | Update =>
      installed_version <- get_installed_version ;;
      if is_update c && is_None installed_version then
        print "Thorium is not installed. Use 'install' command to install it."
      else
          latest_deb_url <- get_latest_deb_release "Alex313031" "Thorium" ;;
          match latest_deb_url with
          | None => print "No .deb release found"
          | Some url =>
              if (url =? EmptyString) then print "No .deb release found"
              else
                last_segment <- lift (getitem (split url "/") (-1)) ;;
                latest_version <- lift (getitem (split last_segment "_") 1) ;;
                if version_eq installed_version latest_version then
                  print ("Latest version " ++ latest_version
                         ++ " is already installed.")
                else
                  (if is_update c then
                     print ("Updating Thorium from version "
                            ++ fmt installed_version ++ " to "
                            ++ latest_version ++ "...")
                   else ret tt) ;;;
                  print ("Latest .deb release URL: " ++ url) ;;;
                  downloaded_file <- download_file url destination_folder ;;
                  install_deb downloaded_file ;;;
                  print ("Installed " ++ downloaded_file)
          end
  | Remove => remove_package "thorium-browser"
  end.

(** ** Notions used in the statements *)

(** The final path segment of a URL, [url.split('/')[-1]]. *)
Definition last_segment (url : string) : string :=
  List.last (split url "/") EmptyString.

(** Where [main] has the package written. *)
Definition download_path (url : string) : string :=
  "/home/kai/projects/renew-thorium/" ++ last_segment url.

(** The endpoint that [main] queries. *)
Definition thorium_api : string := api_url "Alex313031" "Thorium".

(** The command lines of the installer and of the remover. *)
Definition nala_install (file_path : string) : list string :=
  ["sudo"; "nala"; "install"; file_path].

Definition dpkg_install (file_path : string) : list string :=
  ["sudo"; "dpkg"; "-i"; file_path].

Definition nala_fix_broken : list string := ["sudo"; "nala"; "install"; "-f"].

Definition nala_remove (package_name : string) : list string :=
  ["sudo"; "nala"; "remove"; package_name].

Definition dpkg_remove (package_name : string) : list string :=
  ["sudo"; "dpkg"; "-r"; package_name].

Definition install_fallback_notice : event :=
  EvPrint "Nala failed to install the package. Attempting with dpkg...".

Definition remove_fallback_notice : event :=
  EvPrint "Nala failed to remove the package. Attempting with dpkg...".

(** The history when the fallback of [install_deb] starts. *)
Definition at_install_fallback (h : history) (file_path : string) : history :=
  h ++ [EvRun (nala_install file_path); install_fallback_notice].

(** The events of a run that belong to the downloader ([download_file]):
    a streamed GET, opening the file, writing a chunk. *)
Definition downloader_event (e : event) : bool :=
  match e with
  | EvGet _ true | EvOpen _ | EvWrite _ _ => true
  | _ => false
  end.

(** The events of the installer and the remover: elevated commands. *)
Definition package_event (e : event) : bool :=
  match e with
  | EvRun (cmd :: _) => (cmd =? "sudo")
  | _ => false
  end.

(** Any HTTP request. *)
Definition network_event (e : event) : bool :=
  match e with EvGet _ _ => true | _ => false end.


(** Neither the downloader nor the installer acts. *)
Definition no_download_no_install (e : event) : bool :=
  negb (downloader_event e || package_event e).

(** Nothing but the probe and prints: no request, no download, no install. *)
Definition no_network_no_install (e : event) : bool :=
  negb (network_event e || downloader_event e || package_event e).

(** Every file the event touches is [path]. *)
Definition files_at (path : string) (e : event) : bool :=
  match e with
  | EvOpen p | EvWrite p _ => (p =? path)
  | _ => true
  end.

(** The test of the loop of [get_latest_deb_release]. *)
Definition is_deb (a : asset) : bool := endswith (name a) ".deb".

(** The assets of a response in listed order,
    [release_data.get('assets', [])]. *)
Definition listed_assets (r : response) : list asset :=
  match assets (json r) with Some l => l | None => [] end.

(** The spec's words: the first listed asset whose name has the suffix. *)
Definition first_deb_asset (l : list asset) : option asset := List.find is_deb l.

(** [install] and [update] are the commands that probe and resolve. *)
Definition fetches (c : command) : bool :=
  match c with Install | Update => true | Remove => false end.

(** The guard of [update]: an installed version must be present. *)
Definition passes_update_guard (c : command) (installed : option string) : bool :=
  negb (is_update c && is_None installed).

(** What [main] does once the URL is resolved and non-empty (lines 144 to
    156 of the script). *)
Definition after_resolution (c : command) (installed_version : option string)
    (url : string) : M unit :=
  last_segment <- lift (getitem (split url "/") (-1)) ;;
  latest_version <- lift (getitem (split last_segment "_") 1) ;;
  if version_eq installed_version latest_version then
    print ("Latest version " ++ latest_version ++ " is already installed.")
  else
    (if is_update c then
       print ("Updating Thorium from version "
              ++ fmt installed_version ++ " to " ++ latest_version ++ "...")
     else ret tt) ;;;
    print ("Latest .deb release URL: " ++ url) ;;;
    downloaded_file <- download_file url destination_folder ;;
    install_deb downloaded_file ;;;
    print ("Installed " ++ downloaded_file).

(** What [main] prints between the version check and the download. *)
Definition announce (c : command) (installed : option string)
    (latest_version url : string) : list event :=
  (if is_update c then
     [EvPrint ("Updating Thorium from version " ++ fmt installed ++ " to "
               ++ latest_version ++ "...")]
   else [])
  ++ [EvPrint ("Latest .deb release URL: " ++ url)].

(** The download and the installation, lines 154 to 156 of the script. *)
Definition download_and_install (url folder : string) : M unit :=
  downloaded_file <- download_file url folder ;;
  install_deb downloaded_file ;;;
  print ("Installed " ++ downloaded_file).

(** [emits P m]: whatever the world and the history, [m] only appends
    events to the history, and every event it appends satisfies [P]. *)
Definition emits (P : event -> bool) {A : Type} (m : M A) : Prop :=
  forall w h, exists evs, snd (m w h) = h ++ evs /\ forallb P evs = true.

(** [tempdir_free m]: [m] behaves the same whatever
    [tempfile.gettempdir()] answers. *)
Definition tempdir_free {A : Type} (m : M A) : Prop :=
  forall w t h, m (with_tempdir t w) h = m w h.

(** ** Concrete worlds

    Worlds whose answers do not depend on the history; the theorems are
    run on them. *)

Definition scripted_world (procs : list string -> proc_outcome)
    (https : string -> http_outcome) (writable : bool) : world :=
  {| subprocess := fun _ argv => procs argv;
     http := fun _ url => https url;
     can_open_wb := fun _ _ => writable;
     gettempdir := "/tmp" |}.

(** The endpoint has no release. *)
Definition no_release : http_outcome :=
  Response {| status_code := 404; json := {| assets := None |};
              iter_content := [] |}.

Definition good_url : string :=
  "https://github.com/Alex313031/Thorium/releases/download/M117/thorium-browser_117.0.5938.157_amd64.deb".

Definition unconventional_url : string := "https://example.com/thorium.deb".

Definition zip_asset : asset :=
  {| name := "thorium_117.0.5938.157.zip";
     browser_download_url := "https://github.com/Alex313031/Thorium/releases/download/M117/thorium_117.0.5938.157.zip" |}.

Definition deb_asset : asset :=
  {| name := "thorium-browser_117.0.5938.157_amd64.deb";
     browser_download_url := good_url |}.

Definition sse3_deb_asset : asset :=
  {| name := "thorium-browser_117.0.5938.157_SSE3.deb";
     browser_download_url := "https://github.com/Alex313031/Thorium/releases/download/M117/thorium-browser_117.0.5938.157_SSE3.deb" |}.

(** A response with status 200, the listed assets and a body of two chunks. *)
Definition release_with (l : list asset) : http_outcome :=
  Response {| status_code := 200; json := {| assets := Some l |};
              iter_content := ["chunk-1"; "chunk-2"] |}.

(** A release whose only asset is a well-named package. *)
Definition good_release : http_outcome := release_with [deb_asset].

Definition response_of (status : Z) (l : list asset) : response :=
  {| status_code := status; json := {| assets := Some l |}; iter_content := [] |}.

(** Nothing is installed and every request is answered with [r]. *)
Definition world_of_response (r : response) : world :=
  scripted_world (fun _ => NoSuchFile) (fun _ => Response r) true.

(** The probe prints the bare product name and exits with 0. *)
Definition world_one_field : world :=
  scripted_world (fun _ => Exited 0 "Thorium") (fun _ => no_release) true.

(** The probe prints a usual version line. *)
Definition world_versioned : world :=
  scripted_world (fun _ => Exited 0 "Thorium 117.0.5938.157")
    (fun _ => no_release) true.

(** The probe prints the banner of another browser. *)
Definition world_other_banner : world :=
  scripted_world (fun _ => Exited 0 "Chromium 117.0.5938.157")
    (fun _ => no_release) true.

(** The browser is not there. *)
Definition world_absent : world :=
  scripted_world (fun _ => NoSuchFile) (fun _ => no_release) true.

(** The browser is there and its probe exits with 1. *)
Definition world_probe_fails : world :=
  scripted_world (fun _ => Exited 1 EmptyString) (fun _ => no_release) true.

(** The installed browser is the released one. *)
Definition world_up_to_date : world :=
  scripted_world (fun _ => Exited 0 "Thorium 117.0.5938.157")
    (fun _ => good_release) true.

(** Every process that is launched exits with 1. *)
Definition world_all_fail : world :=
  scripted_world (fun _ => Exited 1 EmptyString) (fun _ => no_release) true.

(** [nala install <file>] exits with 100; every other process exits with 0. *)
Definition procs_nala_install_fails (argv : list string) : proc_outcome :=
  match argv with
  | [_; tool; verb; arg] =>
      if (tool =? "nala") && (verb =? "install") && negb (arg =? "-f")
      then Exited 100 EmptyString else Exited 0 EmptyString
  | _ => Exited 0 EmptyString
  end.

Definition world_nala_install_fails : world :=
  scripted_world procs_nala_install_fails (fun _ => good_release) true.

(** Every process exits with 0. *)
Definition world_all_succeed : world :=
  scripted_world (fun _ => Exited 0 EmptyString) (fun _ => good_release) true.

(** Nothing is installed; the release lists a package whose file name has
    no underscore. *)
Definition world_unconventional : world :=
  scripted_world (fun _ => NoSuchFile)
    (fun _ => release_with [ {| name := "thorium.deb";
                                browser_download_url := unconventional_url |} ])
    true.

(** Nothing is installed; the release is well named, and every other
    request is answered with status 404. *)
Definition world_download_refused : world :=
  scripted_world (fun _ => NoSuchFile)
    (fun url => if url =? thorium_api then good_release else no_release) true.

(** Nothing is installed; the release is well named, the download is served
    and every elevated command exits with 0. *)
Definition world_fresh_install : world :=
  scripted_world
    (fun argv => match argv with
                 | cmd :: _ => if cmd =? "sudo" then Exited 0 EmptyString
                               else NoSuchFile
                 | [] => NoSuchFile
                 end)
    (fun _ => good_release) true.

(** ** Notions used in the further properties *)


Definition is_print (e : event) : bool :=
  match e with EvPrint _ => true | _ => false end.

Definition is_open (e : event) : bool :=
  match e with EvOpen _ => true | _ => false end.

Definition is_streamed_get (e : event) : bool :=
  match e with EvGet _ true => true | _ => false end.

(** How many events of the history satisfy [P]. *)
Definition count (P : event -> bool) (tr : history) : nat :=
  List.length (List.filter P tr).

(** What [posixpath.join] puts between a folder and a relative name. *)
Definition separator (folder : string) : string :=
  if (folder =? EmptyString) || endswith folder "/" then EmptyString else "/".

(** The history when the second command of the fallback of [install_deb]
    starts. *)
Definition at_fix_broken (h : history) (file_path : string) : history :=
  at_install_fallback h file_path ++ [EvRun (dpkg_install file_path)].

(** The history when the fallback of [remove_package] starts. *)
Definition at_remove_fallback (h : history) (package_name : string) : history :=
  h ++ [EvRun (nala_remove package_name); remove_fallback_notice].

(** Every elevated command of the history comes after a file was opened. *)
Definition installs_after_download (tr : history) : Prop :=
  forall pre args post,
    tr = pre ++ EvRun ("sudo" :: args) :: post ->
    exists path, In (EvOpen path) pre.

(** ** Further concrete worlds *)

(** The browser is installed and the network is down. *)
Definition world_unreachable : world :=
  scripted_world (fun _ => Exited 0 "Thorium 117.0.5938.157")
    (fun _ => Unreachable) true.

(** Nothing is installed; the release lists a package with an empty
    download URL. *)
Definition world_empty_url : world :=
  scripted_world (fun _ => NoSuchFile)
    (fun _ => release_with [ {| name := "thorium.deb";
                                browser_download_url := EmptyString |} ])
    true.

(** An older version is installed; the release is well named, the download
    is served and every elevated command exits with 0. *)
Definition procs_outdated (argv : list string) : proc_outcome :=
  match argv with
  | cmd :: _ => if cmd =? "sudo" then Exited 0 EmptyString
                else Exited 0 "Thorium 116.0.5845.169"
  | [] => NoSuchFile
  end.

Definition world_outdated : world :=
  scripted_world procs_outdated (fun _ => good_release) true.

(** As [world_fresh_install], with a destination that cannot be written. *)
Definition world_read_only : world :=
  scripted_world (fun _ => NoSuchFile) (fun _ => good_release) false.

(** Nothing is installed, the download is served, and every elevated
    command exits with 1. *)
Definition procs_sudo_fails (argv : list string) : proc_outcome :=
  match argv with
  | cmd :: _ => if cmd =? "sudo" then Exited 1 EmptyString else NoSuchFile
  | [] => NoSuchFile
  end.

Definition world_install_broken : world :=
  scripted_world procs_sudo_fails (fun _ => good_release) true.

(** [nala] fails for every request and [dpkg] works. *)
Definition procs_only_dpkg_works (argv : list string) : proc_outcome :=
  match argv with
  | [_; tool; _; arg] =>
      if (tool =? "nala") && negb (arg =? "-f") then Exited 100 EmptyString
      else Exited 0 EmptyString
  | _ => Exited 0 EmptyString
  end.

Definition world_only_dpkg_works : world :=
  scripted_world procs_only_dpkg_works (fun _ => no_release) true.

(** * Proofs *)

(** ** Facts about strings and indexing *)

Section Indexing.
Context {A : Type}.

Lemma getitem_in_range (l : list A) (i : nat) (x : A) :
  nth_error l i = Some x -> getitem l (Z.of_nat i) = Ok x.
Proof.
  intros Hnth. unfold getitem.
  assert (Hlt : (i < List.length l)%nat)
    by (apply nth_error_Some; congruence).
  destruct (Z.ltb_spec (Z.of_nat i) 0) as [Hneg | _]; [lia |].
  destruct (Z.ltb_spec (Z.of_nat i) 0) as [Hneg | _]; [lia |].
  destruct (Z.leb_spec (Z.of_nat (List.length l)) (Z.of_nat i)) as [Hge | _];
    [lia |].
  simpl. rewrite Nat2Z.id, Hnth. reflexivity.
Qed.

Lemma getitem_second (x y : A) (l : list A) : getitem (x :: y :: l) 1 = Ok y.
Proof. exact (getitem_in_range (x :: y :: l) 1 y eq_refl). Qed.

Lemma getitem_too_short (l : list A) (i : nat) :
  (List.length l <= i)%nat -> getitem l (Z.of_nat i) = Raise IndexError.
Proof.
  intros Hle. unfold getitem.
  destruct (Z.ltb_spec (Z.of_nat i) 0) as [Hneg | _]; [lia |].
  destruct (Z.ltb_spec (Z.of_nat i) 0) as [Hneg | _]; [lia |].
  destruct (Z.leb_spec (Z.of_nat (List.length l)) (Z.of_nat i)) as [_ | Hlt];
    [reflexivity | lia].
Qed.

Lemma getitem_last (l : list A) (d : A) :
  l <> [] -> getitem l (-1) = Ok (List.last l d).
Proof.
  intros Hne. destruct (exists_last Hne) as [front [x Hl]]. subst l.
  rewrite last_last. unfold getitem. rewrite length_app. simpl List.length.
  replace (if (-1 <? 0)%Z then (-1 + Z.of_nat (List.length front + 1))%Z
           else (-1)%Z) with (Z.of_nat (List.length front))
    by (change (-1 <? 0)%Z with true; cbv iota; lia).
  destruct (Z.ltb_spec (Z.of_nat (List.length front)) 0) as [Hneg | _];
    [lia |].
  destruct (Z.leb_spec (Z.of_nat (List.length front + 1))
              (Z.of_nat (List.length front))) as [Hge | _]; [lia |].
  simpl. rewrite Nat2Z.id, nth_error_app2, Nat.sub_diag by lia.
  reflexivity.
Qed.
End Indexing.

Lemma split_not_nil (s : string) (sep : ascii) : split s sep <> [].
Proof.
  destruct s as [| c s]; simpl; [discriminate |].
  destruct (Ascii.eqb c sep); [discriminate |].
  destruct (split s sep); discriminate.
Qed.

Lemma split_without_sep (s : string) (sep : ascii) :
  contains s sep = false -> split s sep = [s].
Proof.
  induction s as [| c s IH]; simpl; intros Hc; [reflexivity |].
  apply orb_false_iff in Hc. destruct Hc as [Hc Hs].
  rewrite Hc, (IH Hs). reflexivity.
Qed.

Lemma split_fields_without_sep (s : string) (sep : ascii) :
  Forall (fun f => contains f sep = false) (split s sep).
Proof.
  induction s as [| c s IH]; simpl.
  - constructor; [reflexivity | constructor].
  - destruct (Ascii.eqb c sep) eqn:Hc.
    + constructor; [reflexivity | exact IH].
    + destruct (split s sep) as [| f fs].
      * constructor; [simpl; rewrite Hc; reflexivity | constructor].
      * inversion IH as [| ? ? Hf Hfs]; subst.
        constructor; [simpl; rewrite Hc, Hf; reflexivity | exact Hfs].
Qed.

Lemma last_segment_getitem (url : string) :
  getitem (split url "/") (-1) = Ok (last_segment url).
Proof. apply getitem_last, split_not_nil. Qed.

Lemma last_segment_without_slash (url : string) :
  contains (last_segment url) "/" = false.
Proof.
  unfold last_segment.
  pose proof (split_fields_without_sep url "/") as Hall.
  pose proof (split_not_nil url "/") as Hne.
  destruct (exists_last Hne) as [front [x Hl]]. rewrite Hl in *.
  rewrite last_last. apply Forall_app in Hall. destruct Hall as [_ Hx].
  inversion Hx; assumption.
Qed.

(** Joining the destination folder of [main] with a name without slash
    appends the name after one slash. *)
Lemma join_destination_folder (seg : string) :
  contains seg "/" = false ->
  os_path_join destination_folder seg
  = (destination_folder ++ "/" ++ seg)%string.
Proof.
  intros Hseg. unfold os_path_join.
  assert (Hstart : startswith seg "/" = false).
  { destruct seg as [| c seg]; [reflexivity |].
    simpl in Hseg. apply orb_false_iff in Hseg. destruct Hseg as [Hc _].
    simpl. rewrite Hc. reflexivity. }
  rewrite Hstart. reflexivity.
Qed.

(** ** Running the monad *)

Lemma bind_ok {A B : Type} (m : M A) (f : A -> M B) w h a h' :
  m w h = (Ok a, h') -> bind m f w h = f a w h'.
Proof. intros Hm. unfold bind. rewrite Hm. reflexivity. Qed.

Lemma bind_raise {A B : Type} (m : M A) (f : A -> M B) w h e h' :
  m w h = (Raise e, h') -> bind m f w h = (Raise e, h').
Proof. intros Hm. unfold bind. rewrite Hm. reflexivity. Qed.

Lemma for_each_emit {A : Type} (xs : list A) (ev : A -> event) w h :
  for_each xs (fun x => emit (ev x)) w h = (Ok tt, h ++ map ev xs).
Proof.
  revert h. induction xs as [| x xs IH]; intros h; simpl.
  - unfold ret. rewrite app_nil_r. reflexivity.
  - unfold bind, emit. rewrite IH, <- app_assoc. reflexivity.
Qed.

(** ** The version prober *)

(** C4, as stated, fails: when the probe prints a line that starts with the
    product name and has one field only, the prober does not return [None];
    the index [1] raises [IndexError], which no [except] clause of the
    prober catches. *)
Lemma prober_one_field_raises :
  subprocess world_one_field [] probe_argv = Exited 0 "Thorium"
  /\ startswith (strip "Thorium") "Thorium" = true
  /\ split_ws (strip "Thorium") = ["Thorium"]
  /\ get_installed_version world_one_field []
     = (Raise IndexError, [EvRun probe_argv])
  /\ fst (get_installed_version world_one_field []) <> Ok None.
Proof. repeat split; try reflexivity. discriminate. Qed.

(** C4, amended.  The prober returns the second whitespace-separated field
    when the stripped probe output starts with the product name and has at
    least two fields; it returns [None] without raising when the output does
    not start with the product name, and when the probe fails (executable
    missing, or non-zero exit), after printing a message; when the output
    starts with the product name and has fewer than two fields, the
    [IndexError] of the index propagates. *)
Theorem get_installed_version_cases (w : world) (h : history) :
  (forall out f v rest,
      subprocess w h probe_argv = Exited 0 out ->
      startswith (strip out) "Thorium" = true ->
      split_ws (strip out) = f :: v :: rest ->
      get_installed_version w h = (Ok (Some v), h ++ [EvRun probe_argv]))
  /\ (forall out,
      subprocess w h probe_argv = Exited 0 out ->
      startswith (strip out) "Thorium" = false ->
      get_installed_version w h = (Ok None, h ++ [EvRun probe_argv]))
  /\ (subprocess w h probe_argv = NoSuchFile ->
      get_installed_version w h
      = (Ok None, h ++ [EvRun probe_argv;
                        EvPrint "Thorium browser is not installed."]))
  /\ (forall rc out,
      subprocess w h probe_argv = Exited rc out -> rc <> 0%Z ->
      get_installed_version w h
      = (Ok None,
         h ++ [EvRun probe_argv;
               EvPrint "Thorium browser is not installed or unable to get version."]))
  /\ (forall out,
      subprocess w h probe_argv = Exited 0 out ->
      startswith (strip out) "Thorium" = true ->
      (List.length (split_ws (strip out)) < 2)%nat ->
      get_installed_version w h = (Raise IndexError, h ++ [EvRun probe_argv])).
Proof.
  unfold get_installed_version, try_except, bind, subprocess_run, lift, ret,
    print, emit.
  repeat split.
  - intros out f v rest Hrun Hstart Hfields.
    rewrite Hrun. cbn [Z.eqb]. rewrite Hstart, Hfields, getitem_second.
    reflexivity.
  - intros out Hrun Hstart. rewrite Hrun. cbn [Z.eqb]. rewrite Hstart.
    reflexivity.
  - intros Hrun. rewrite Hrun, <- app_assoc. reflexivity.
  - intros rc out Hrun Hrc. rewrite Hrun.
    destruct (Z.eqb_spec rc 0) as [H0 | _]; [contradiction |].
    rewrite <- app_assoc. reflexivity.
  - intros out Hrun Hstart Hshort. rewrite Hrun. cbn [Z.eqb]. rewrite Hstart.
    change 1%Z with (Z.of_nat 1). rewrite getitem_too_short by lia.
    reflexivity.
Qed.

(** The five cases of the prober, each on a concrete probe. *)
Lemma get_installed_version_cases_witness :
  get_installed_version world_versioned []
  = (Ok (Some "117.0.5938.157"), [EvRun probe_argv])
  /\ get_installed_version world_other_banner [] = (Ok None, [EvRun probe_argv])
  /\ get_installed_version world_absent []
     = (Ok None, [EvRun probe_argv;
                  EvPrint "Thorium browser is not installed."])
  /\ get_installed_version world_probe_fails []
     = (Ok None,
        [EvRun probe_argv;
         EvPrint "Thorium browser is not installed or unable to get version."])
  /\ get_installed_version world_one_field []
     = (Raise IndexError, [EvRun probe_argv]).
Proof.
  split; [| split; [| split; [| split]]].
  - apply (proj1 (get_installed_version_cases world_versioned [])
             "Thorium 117.0.5938.157" "Thorium" "117.0.5938.157" []);
      reflexivity.
  - apply (proj1 (proj2 (get_installed_version_cases world_other_banner []))
             "Chromium 117.0.5938.157"); reflexivity.
  - apply (proj1 (proj2 (proj2 (get_installed_version_cases world_absent []))));
      reflexivity.
  - apply (proj1 (proj2 (proj2 (proj2
             (get_installed_version_cases world_probe_fails []))))
             1%Z EmptyString); [reflexivity | lia].
  - apply (proj2 (proj2 (proj2 (proj2
             (get_installed_version_cases world_one_field []))))
             "Thorium"); [reflexivity | reflexivity | simpl; lia].
Defined.

(** ** The release resolver *)

Lemma scan_assets_find (l : list asset) :
  scan_assets l = option_map browser_download_url (first_deb_asset l).
Proof.
  unfold first_deb_asset.
  induction l as [| a l IH]; simpl; [reflexivity |].
  unfold is_deb at 1. destruct (endswith (name a) ".deb"); [reflexivity | exact IH].
Qed.

Lemma scan_assets_first (pre post : list asset) (a : asset) :
  Forall (fun b => is_deb b = false) pre -> is_deb a = true ->
  scan_assets (pre ++ a :: post) = Some (browser_download_url a).
Proof.
  intros Hpre Ha. induction Hpre as [| b pre Hb _ IH]; simpl.
  - unfold is_deb in Ha. rewrite Ha. reflexivity.
  - unfold is_deb in Hb. rewrite Hb. exact IH.
Qed.

Lemma scan_assets_none (l : list asset) :
  Forall (fun b => is_deb b = false) l -> scan_assets l = None.
Proof.
  intros Hl. induction Hl as [| b l Hb _ IH]; simpl; [reflexivity |].
  unfold is_deb in Hb. rewrite Hb. exact IH.
Qed.

Lemma get_latest_deb_release_ok (owner repo : string) w h r :
  http w h (api_url owner repo) = Response r -> status_code r = 200%Z ->
  get_latest_deb_release owner repo w h
  = (Ok (scan_assets (listed_assets r)), h ++ [EvGet (api_url owner repo) false]).
Proof.
  intros Hget Hst. unfold get_latest_deb_release, bind, requests_get.
  rewrite Hget, Hst. reflexivity.
Qed.

Lemma get_latest_deb_release_failed (owner repo : string) w h r :
  http w h (api_url owner repo) = Response r -> status_code r <> 200%Z ->
  get_latest_deb_release owner repo w h
  = (Ok None,
     h ++ [EvGet (api_url owner repo) false;
           EvPrint "Failed to fetch release data from GitHub API"]).
Proof.
  intros Hget Hst. unfold get_latest_deb_release, bind, requests_get.
  rewrite Hget. destruct (Z.eqb_spec (status_code r) 200) as [H200 | _];
    [contradiction |].
  simpl. unfold bind, print, emit, ret. rewrite <- app_assoc. reflexivity.
Qed.

(** ** The dispatcher up to the resolved URL *)

Lemma main_resolved (c : command) w installed h1 url h2 :
  fetches c = true ->
  get_installed_version w [] = (Ok installed, h1) ->
  passes_update_guard c installed = true ->
  get_latest_deb_release "Alex313031" "Thorium" w h1 = (Ok (Some url), h2) ->
  url <> EmptyString ->
  main c w [] = after_resolution c installed url w h2.
Proof.
  intros Hc Hprobe Hguard Hres Hurl.
  assert (Hne : (url =? EmptyString) = false) by (apply String.eqb_neq; exact Hurl).
  unfold passes_update_guard in Hguard. apply negb_true_iff in Hguard.
  destruct c; try discriminate Hc; unfold main;
    (rewrite (bind_ok tempfile_gettempdir _ w [] (gettempdir w) []) by reflexivity);
    rewrite (bind_ok _ _ _ _ _ _ Hprobe), Hguard;
    rewrite (bind_ok _ _ _ _ _ _ Hres), Hne; reflexivity.
Qed.

Lemma main_unresolved (c : command) w installed h1 h2 :
  fetches c = true ->
  get_installed_version w [] = (Ok installed, h1) ->
  passes_update_guard c installed = true ->
  get_latest_deb_release "Alex313031" "Thorium" w h1 = (Ok None, h2) ->
  main c w [] = (Ok tt, h2 ++ [EvPrint "No .deb release found"]).
Proof.
  intros Hc Hprobe Hguard Hres.
  unfold passes_update_guard in Hguard. apply negb_true_iff in Hguard.
  destruct c; try discriminate Hc; unfold main;
    (rewrite (bind_ok tempfile_gettempdir _ w [] (gettempdir w) []) by reflexivity);
    rewrite (bind_ok _ _ _ _ _ _ Hprobe), Hguard;
    rewrite (bind_ok _ _ _ _ _ _ Hres); reflexivity.
Qed.

(** ** What a computation may emit *)

Section Emits.
Variable P : event -> bool.

Lemma emits_nothing {A : Type} (m : M A) :
  (forall w h, snd (m w h) = h) -> emits P m.
Proof.
  intros Hm w h. exists []. rewrite Hm, app_nil_r. split; reflexivity.
Qed.

Lemma emits_one {A : Type} (m : M A) (e : event) :
  P e = true -> (forall w h, snd (m w h) = h ++ [e]) -> emits P m.
Proof.
  intros He Hm w h. exists [e]. rewrite Hm. simpl. rewrite He.
  split; reflexivity.
Qed.

Lemma emits_ret {A : Type} (a : A) : emits P (ret a).
Proof. apply emits_nothing. reflexivity. Qed.

Lemma emits_raise {A : Type} (e : exn) : emits P (@raise A e).
Proof. apply emits_nothing. reflexivity. Qed.

Lemma emits_lift {A : Type} (r : result A) : emits P (lift r).
Proof. apply emits_nothing. reflexivity. Qed.

Lemma emits_emit (e : event) : P e = true -> emits P (emit e).
Proof. intros He. apply (emits_one _ e He). reflexivity. Qed.

Lemma emits_subprocess_run (argv : list string) :
  P (EvRun argv) = true -> emits P (subprocess_run argv).
Proof.
  intros He. apply (emits_one _ (EvRun argv) He). intros w h.
  unfold subprocess_run. destruct (subprocess w h argv) as [| rc out];
    [reflexivity |].
  destruct (rc =? 0)%Z; reflexivity.
Qed.

Lemma emits_requests_get (url : string) (stream : bool) :
  P (EvGet url stream) = true -> emits P (requests_get url stream).
Proof.
  intros He. apply (emits_one _ (EvGet url stream) He). intros w h.
  unfold requests_get. destruct (http w h url); reflexivity.
Qed.

Lemma emits_open_wb (path : string) :
  P (EvOpen path) = true -> emits P (open_wb path).
Proof.
  intros He. apply (emits_one _ (EvOpen path) He). intros w h.
  unfold open_wb. destruct (can_open_wb w h path); reflexivity.
Qed.

Lemma emits_raise_for_status (r : response) : emits P (raise_for_status r).
Proof.
  unfold raise_for_status.
  destruct (error_status r); [apply emits_raise | apply emits_ret].
Qed.

Lemma emits_bind {A B : Type} (m : M A) (f : A -> M B) :
  emits P m -> (forall a, emits P (f a)) -> emits P (bind m f).
Proof.
  intros Hm Hf w h. unfold bind.
  destruct (Hm w h) as [evs [Htr Hall]].
  destruct (m w h) as [[a | e] h']; simpl in Htr; subst h'.
  - destruct (Hf a w (h ++ evs)) as [evs' [Htr' Hall']].
    exists (evs ++ evs'). rewrite Htr', app_assoc, forallb_app, Hall, Hall'.
    split; reflexivity.
  - exists evs. split; [reflexivity | exact Hall].
Qed.

Lemma emits_try_except {A : Type} (body : M A)
    (handler : exn -> option (M A)) :
  emits P body -> (forall e k, handler e = Some k -> emits P k) ->
  emits P (try_except body handler).
Proof.
  intros Hbody Hhandler w h. unfold try_except.
  destruct (Hbody w h) as [evs [Htr Hall]].
  destruct (body w h) as [[a | e] h']; simpl in Htr; subst h'.
  - exists evs. split; [reflexivity | exact Hall].
  - destruct (handler e) as [k |] eqn:Hk.
    + destruct (Hhandler e k Hk w (h ++ evs)) as [evs' [Htr' Hall']].
      exists (evs ++ evs'). rewrite Htr', app_assoc, forallb_app, Hall, Hall'.
      split; reflexivity.
    + exists evs. split; [reflexivity | exact Hall].
Qed.

Lemma emits_for_each {A : Type} (xs : list A) (body : A -> M unit) :
  (forall x, emits P (body x)) -> emits P (for_each xs body).
Proof.
  intros Hbody. induction xs as [| x xs IH]; simpl.
  - apply emits_ret.
  - apply emits_bind; [apply Hbody | intros _; exact IH].
Qed.

(** The four wrappers, when [P] admits every print. *)
Hypothesis P_print : forall line, P (EvPrint line) = true.

Lemma emits_print (line : string) : emits P (print line).
Proof. apply emits_emit, P_print. Qed.

Lemma emits_get_installed_version :
  P (EvRun probe_argv) = true -> emits P get_installed_version.
Proof.
  intros Hrun. unfold get_installed_version. apply emits_try_except.
  - apply emits_bind; [apply emits_subprocess_run, Hrun |].
    intros out. cbv zeta. destruct (startswith (strip out) "Thorium").
    + apply emits_bind; [apply emits_lift | intros v; apply emits_ret].
    + apply emits_ret.
  - intros e k Hk.
    destruct e; inversion Hk; subst k;
      (apply emits_bind; [apply emits_print | intros _; apply emits_ret]).
Qed.

Lemma emits_get_latest_deb_release (owner repo : string) :
  P (EvGet (api_url owner repo) false) = true ->
  emits P (get_latest_deb_release owner repo).
Proof.
  intros Hget. unfold get_latest_deb_release.
  apply emits_bind; [apply emits_requests_get, Hget |].
  intros resp. destruct (negb (status_code resp =? 200)%Z).
  - apply emits_bind; [apply emits_print | intros _; apply emits_ret].
  - apply emits_ret.
Qed.

Lemma emits_install_deb (file_path : string) :
  (forall args, P (EvRun ("sudo" :: args)) = true) ->
  emits P (install_deb file_path).
Proof.
  intros Hsudo. unfold install_deb. apply emits_try_except.
  - apply emits_bind; [apply emits_subprocess_run, Hsudo |].
    intros _. apply emits_ret.
  - intros e k Hk. destruct e; inversion Hk; subst k.
    apply emits_bind; [apply emits_print | intros _].
    apply emits_bind; [apply emits_subprocess_run, Hsudo | intros _].
    apply emits_bind; [apply emits_subprocess_run, Hsudo | intros _].
    apply emits_ret.
Qed.

Lemma emits_download_file (url folder : string) :
  P (EvGet url true) = true ->
  P (EvOpen (os_path_join folder (last_segment url))) = true ->
  (forall chunk,
      P (EvWrite (os_path_join folder (last_segment url)) chunk) = true) ->
  emits P (download_file url folder).
Proof.
  intros Hget Hopen Hwrite w h. unfold download_file.
  rewrite (bind_ok _ _ w h (last_segment url) h)
    by (unfold lift; rewrite last_segment_getitem; reflexivity).
  revert w h. cbv zeta.
  apply emits_bind; [apply emits_requests_get, Hget | intros r].
  apply emits_bind; [apply emits_raise_for_status | intros _].
  apply emits_bind; [apply emits_open_wb, Hopen | intros _].
  apply emits_bind; [| intros _; apply emits_ret].
  apply emits_for_each. intros chunk. apply emits_emit, Hwrite.
Qed.
End Emits.

Lemma emitted {A : Type} (P : event -> bool) (m : M A) w h r h' :
  emits P m -> m w h = (r, h') ->
  exists evs, h' = h ++ evs /\ forallb P evs = true.
Proof.
  intros Hm Hrun. destruct (Hm w h) as [evs [Htr Hall]].
  rewrite Hrun in Htr. exists evs. split; assumption.
Qed.

(** The probe and the resolution leave the downloader and the installer
    alone. *)
Lemma probe_then_resolve_quiet w installed h1 r h2 :
  get_installed_version w [] = (Ok installed, h1) ->
  get_latest_deb_release "Alex313031" "Thorium" w h1 = (r, h2) ->
  forallb no_download_no_install h2 = true.
Proof.
  intros Hprobe Hres.
  destruct (emitted no_download_no_install _ _ _ _ _
              (emits_get_installed_version _ (fun _ => eq_refl) eq_refl) Hprobe)
    as [evs1 [-> Hall1]].
  destruct (emitted no_download_no_install _ _ _ _ _
              (emits_get_latest_deb_release _ (fun _ => eq_refl) _ _ eq_refl)
              Hres)
    as [evs2 [-> Hall2]].
  simpl. rewrite forallb_app, Hall1, Hall2. reflexivity.
Qed.

(** A URL from which a version token is extracted is not empty. *)
Lemma extracted_url_not_empty (url v : string) :
  getitem (split (last_segment url) "_") 1 = Ok v -> url <> EmptyString.
Proof. intros Hv ->. discriminate Hv. Qed.

Lemma after_resolution_eq (c : command) installed url w h :
  after_resolution c installed url w h
  = match getitem (split (last_segment url) "_") 1 with
    | Raise e => (Raise e, h)
    | Ok latest_version =>
        if version_eq installed latest_version then
          (Ok tt, h ++ [EvPrint ("Latest version " ++ latest_version
                                 ++ " is already installed.")])
        else
          ((if is_update c then
              print ("Updating Thorium from version "
                     ++ fmt installed ++ " to " ++ latest_version ++ "...")
            else ret tt) ;;;
           print ("Latest .deb release URL: " ++ url) ;;;
           downloaded_file <- download_file url destination_folder ;;
           install_deb downloaded_file ;;;
           print ("Installed " ++ downloaded_file)) w h
    end.
Proof.
  unfold after_resolution.
  rewrite (bind_ok _ _ w h (last_segment url) h)
    by (unfold lift; rewrite last_segment_getitem; reflexivity).
  destruct (getitem (split (last_segment url) "_") 1) as [v | e] eqn:Hv.
  - rewrite (bind_ok _ _ w h v h) by reflexivity.
    destruct (version_eq installed v); reflexivity.
  - rewrite (bind_raise _ _ w h e h) by reflexivity.
    reflexivity.
Qed.

(** ** The dispatcher *)

(** C1.  For [install] and [update]: when the prober returns a version that
    equals the token extracted from the resolved URL, the dispatcher prints
    the message that this version is already installed and returns; no
    event of the run belongs to the downloader or to the installer. *)
Theorem already_installed_returns (c : command) w v h1 url h2 :
  fetches c = true ->
  get_installed_version w [] = (Ok (Some v), h1) ->
  get_latest_deb_release "Alex313031" "Thorium" w h1 = (Ok (Some url), h2) ->
  getitem (split (last_segment url) "_") 1 = Ok v ->
  main c w []
  = (Ok tt, h2 ++ [EvPrint ("Latest version " ++ v ++ " is already installed.")])
  /\ forallb no_download_no_install (snd (main c w [])) = true.
Proof.
  intros Hc Hprobe Hres Hv.
  assert (Hmain : main c w []
    = (Ok tt, h2 ++ [EvPrint ("Latest version " ++ v ++ " is already installed.")])).
  { rewrite (main_resolved c w (Some v) h1 url h2 Hc Hprobe);
      [| destruct c; reflexivity | exact Hres
       | exact (extracted_url_not_empty url v Hv)].
    rewrite after_resolution_eq, Hv. simpl. rewrite String.eqb_refl.
    reflexivity. }
  split; [exact Hmain |].
  rewrite Hmain. simpl. rewrite forallb_app.
  rewrite (probe_then_resolve_quiet w _ h1 _ h2 Hprobe Hres). reflexivity.
Qed.

(** An update of a browser that is up to date. *)
Lemma already_installed_returns_witness :
  main Update world_up_to_date []
  = (Ok tt, [EvRun probe_argv; EvGet thorium_api false;
             EvPrint "Latest version 117.0.5938.157 is already installed."])
  /\ forallb no_download_no_install (snd (main Update world_up_to_date [])) = true.
Proof.
  apply (already_installed_returns Update world_up_to_date "117.0.5938.157"
           [EvRun probe_argv] good_url
           [EvRun probe_argv; EvGet thorium_api false]);
    reflexivity.
Defined.

(** C2.  For [update]: when the prober returns [None], the dispatcher prints
    the message that directs to [install] and returns; the run holds no
    request to the network, no download and no elevated command. *)
Theorem update_without_installed_aborts w h1 :
  get_installed_version w [] = (Ok None, h1) ->
  main Update w []
  = (Ok tt,
     h1 ++ [EvPrint "Thorium is not installed. Use 'install' command to install it."])
  /\ forallb no_network_no_install (snd (main Update w [])) = true.
Proof.
  intros Hprobe.
  assert (Hmain : main Update w []
    = (Ok tt,
       h1 ++ [EvPrint "Thorium is not installed. Use 'install' command to install it."])).
  { unfold main.
    rewrite (bind_ok tempfile_gettempdir _ w [] (gettempdir w) []) by reflexivity.
    rewrite (bind_ok _ _ _ _ _ _ Hprobe). reflexivity. }
  split; [exact Hmain |].
  rewrite Hmain. simpl.
  destruct (emitted no_network_no_install _ _ _ _ _
              (emits_get_installed_version _ (fun _ => eq_refl) eq_refl) Hprobe)
    as [evs [-> Hall]].
  simpl. rewrite forallb_app, Hall. reflexivity.
Qed.

(** An update when the browser is not there. *)
Lemma update_without_installed_aborts_witness :
  main Update world_absent []
  = (Ok tt,
     [EvRun probe_argv; EvPrint "Thorium browser is not installed.";
      EvPrint "Thorium is not installed. Use 'install' command to install it."])
  /\ forallb no_network_no_install (snd (main Update world_absent [])) = true.
Proof.
  apply (update_without_installed_aborts world_absent
           [EvRun probe_argv; EvPrint "Thorium browser is not installed."]).
  reflexivity.
Defined.

(** ** Release resolution, end to end *)

(** C3.  For every response [r] of the release endpoint: with a status
    other than 200 the resolver returns [None] (after reporting the failure);
    with status 200 it returns the download URL of the first listed asset
    whose name ends in [.deb], and [None] when no listed name has the suffix;
    in that case the dispatcher prints [No .deb release found] and returns,
    the request to the endpoint being the last thing it did. *)
Theorem release_resolution (w : world) (r : response) :
  (forall owner repo h,
      http w h (api_url owner repo) = Response r ->
      (status_code r <> 200%Z ->
       get_latest_deb_release owner repo w h
       = (Ok None,
          h ++ [EvGet (api_url owner repo) false;
                EvPrint "Failed to fetch release data from GitHub API"]))
      /\ (status_code r = 200%Z ->
          get_latest_deb_release owner repo w h
          = (Ok (option_map browser_download_url
                   (first_deb_asset (listed_assets r))),
             h ++ [EvGet (api_url owner repo) false])
          /\ (forall pre a post,
                 listed_assets r = pre ++ a :: post ->
                 Forall (fun b => is_deb b = false) pre -> is_deb a = true ->
                 fst (get_latest_deb_release owner repo w h)
                 = Ok (Some (browser_download_url a)))
          /\ (Forall (fun b => is_deb b = false) (listed_assets r) ->
              fst (get_latest_deb_release owner repo w h) = Ok None)))
  /\ (forall c installed h1,
      fetches c = true ->
      get_installed_version w [] = (Ok installed, h1) ->
      passes_update_guard c installed = true ->
      http w h1 thorium_api = Response r ->
      status_code r = 200%Z ->
      Forall (fun b => is_deb b = false) (listed_assets r) ->
      main c w []
      = (Ok tt, h1 ++ [EvGet thorium_api false; EvPrint "No .deb release found"])).
Proof.
  split.
  - intros owner repo h Hget. split.
    + intros Hst. exact (get_latest_deb_release_failed owner repo w h r Hget Hst).
    + intros Hst.
      pose proof (get_latest_deb_release_ok owner repo w h r Hget Hst) as Hok.
      split; [rewrite Hok, scan_assets_find; reflexivity |].
      split.
      * intros pre a post Hl Hpre Ha.
        rewrite Hok, Hl, (scan_assets_first pre post a Hpre Ha). reflexivity.
      * intros Hnone. rewrite Hok, (scan_assets_none _ Hnone). reflexivity.
  - intros c installed h1 Hc Hprobe Hguard Hget Hst Hnone.
    pose proof (get_latest_deb_release_ok "Alex313031" "Thorium" w h1 r Hget Hst)
      as Hok.
    rewrite (scan_assets_none _ Hnone) in Hok.
    rewrite (main_unresolved c w installed h1 _ Hc Hprobe Hguard Hok).
    rewrite <- app_assoc. reflexivity.
Qed.

(** A refused request, a release with two packages after an archive, and
    a release without package. *)
Lemma release_resolution_witness :
  get_latest_deb_release "Alex313031" "Thorium"
    (world_of_response (response_of 503 [deb_asset])) []
  = (Ok None, [EvGet thorium_api false;
               EvPrint "Failed to fetch release data from GitHub API"])
  /\ fst (get_latest_deb_release "Alex313031" "Thorium"
            (world_of_response
               (response_of 200 [zip_asset; deb_asset; sse3_deb_asset])) [])
     = Ok (Some good_url)
  /\ fst (get_latest_deb_release "Alex313031" "Thorium"
            (world_of_response (response_of 200 [zip_asset])) [])
     = Ok None
  /\ main Install (world_of_response (response_of 200 [zip_asset])) []
     = (Ok tt, [EvRun probe_argv; EvPrint "Thorium browser is not installed."]
               ++ [EvGet thorium_api false; EvPrint "No .deb release found"]).
Proof.
  split; [| split; [| split]].
  - apply (proj1 (release_resolution
                    (world_of_response (response_of 503 [deb_asset]))
                    (response_of 503 [deb_asset]))
             "Alex313031" "Thorium" [] eq_refl).
    simpl. lia.
  - apply (proj1 (proj2 (proj2 (proj1 (release_resolution
                    (world_of_response
                       (response_of 200 [zip_asset; deb_asset; sse3_deb_asset]))
                    (response_of 200 [zip_asset; deb_asset; sse3_deb_asset]))
             "Alex313031" "Thorium" [] eq_refl) eq_refl))
             [zip_asset] deb_asset [sse3_deb_asset]).
    + reflexivity.
    + repeat constructor.
    + reflexivity.
  - apply (proj2 (proj2 (proj2 (proj1 (release_resolution
                    (world_of_response (response_of 200 [zip_asset]))
                    (response_of 200 [zip_asset]))
             "Alex313031" "Thorium" [] eq_refl) eq_refl))).
    repeat constructor.
  - apply (proj2 (release_resolution
                    (world_of_response (response_of 200 [zip_asset]))
                    (response_of 200 [zip_asset]))
             Install None
             [EvRun probe_argv; EvPrint "Thorium browser is not installed."]);
      try reflexivity.
    repeat constructor.
Defined.

(** ** The installer and the remover *)

Lemma install_deb_primary_ok (file_path : string) w h out :
  subprocess w h (nala_install file_path) = Exited 0 out ->
  install_deb file_path w h = (Ok tt, h ++ [EvRun (nala_install file_path)]).
Proof.
  intros Hrun. unfold install_deb, try_except, bind, subprocess_run.
  fold (nala_install file_path). rewrite Hrun. reflexivity.
Qed.

Lemma install_deb_primary_failed (file_path : string) w h rc out :
  subprocess w h (nala_install file_path) = Exited rc out -> rc <> 0%Z ->
  install_deb file_path w h
  = (subprocess_run (dpkg_install file_path) ;;;
     subprocess_run nala_fix_broken ;;; ret tt)
      w (at_install_fallback h file_path).
Proof.
  intros Hrun Hrc. unfold install_deb, try_except.
  rewrite (bind_raise _ _ w h CalledProcessError
             (h ++ [EvRun (nala_install file_path)])).
  - rewrite (bind_ok _ _ w _ tt (at_install_fallback h file_path)).
    + reflexivity.
    + unfold print, emit, at_install_fallback. rewrite <- app_assoc.
      reflexivity.
  - unfold subprocess_run. fold (nala_install file_path). rewrite Hrun.
    destruct (Z.eqb_spec rc 0) as [H0 | _]; [contradiction | reflexivity].
Qed.

(** C5, as stated, fails: the primary invocation exits with 1 and so does
    the forced install; the installer then stops with the exception of the
    forced install, and the fix-broken invocation never happens. *)
Lemma install_fallback_stops_at_dpkg :
  subprocess world_all_fail [] (nala_install "/tmp/thorium.deb")
  = Exited 1 EmptyString
  /\ install_deb "/tmp/thorium.deb" world_all_fail []
     = (Raise CalledProcessError,
        [EvRun (nala_install "/tmp/thorium.deb"); install_fallback_notice;
         EvRun (dpkg_install "/tmp/thorium.deb")])
  /\ ~ In (EvRun nala_fix_broken)
       (snd (install_deb "/tmp/thorium.deb" world_all_fail [])).
Proof.
  split; [reflexivity | split; [reflexivity |]].
  simpl. intros [H | [H | [H | []]]]; discriminate H.
Qed.

(** C5, amended.  When the primary install invocation exits with a
    non-zero code, the installer runs the forced install of the low-level
    tool once, on the same path, and nothing but the fix-broken invocation
    may follow it; when the forced install exits with 0, exactly that one
    fix-broken invocation follows, and otherwise none does.  When the
    primary invocation exits with 0, it is the only command run. *)
Theorem install_deb_fallback (file_path : string) (w : world) (h : history) :
  (forall rc out,
      subprocess w h (nala_install file_path) = Exited rc out -> rc <> 0%Z ->
      (exists tail,
          snd (install_deb file_path w h)
          = h ++ [EvRun (nala_install file_path); install_fallback_notice;
                  EvRun (dpkg_install file_path)] ++ tail
          /\ (tail = [] \/ tail = [EvRun nala_fix_broken]))
      /\ (forall out',
          subprocess w (at_install_fallback h file_path) (dpkg_install file_path)
          = Exited 0 out' ->
          snd (install_deb file_path w h)
          = h ++ [EvRun (nala_install file_path); install_fallback_notice;
                  EvRun (dpkg_install file_path); EvRun nala_fix_broken])
      /\ ((forall out',
              subprocess w (at_install_fallback h file_path)
                (dpkg_install file_path) <> Exited 0 out') ->
          snd (install_deb file_path w h)
          = h ++ [EvRun (nala_install file_path); install_fallback_notice;
                  EvRun (dpkg_install file_path)]))
  /\ (forall out,
      subprocess w h (nala_install file_path) = Exited 0 out ->
      install_deb file_path w h
      = (Ok tt, h ++ [EvRun (nala_install file_path)])).
Proof.
  split; [| intros out Hrun; exact (install_deb_primary_ok file_path w h out Hrun)].
  intros rc out Hrun Hrc.
  rewrite (install_deb_primary_failed file_path w h rc out Hrun Hrc).
  unfold at_install_fallback, bind, subprocess_run, ret.
  split.
  - destruct (subprocess w _ (dpkg_install file_path)) as [| rc1 out1].
    + exists []. rewrite <- app_assoc. split; [reflexivity | left; reflexivity].
    + destruct (rc1 =? 0)%Z.
      * exists [EvRun nala_fix_broken]. split; [| right; reflexivity].
        destruct (subprocess w _ nala_fix_broken) as [| rc2 out2];
          [| destruct (rc2 =? 0)%Z]; simpl; rewrite <- !app_assoc;
          reflexivity.
      * exists []. rewrite <- app_assoc. split; [reflexivity | left; reflexivity].
  - split.
    + intros out' Hdpkg. rewrite Hdpkg. cbn [Z.eqb].
      destruct (subprocess w _ nala_fix_broken) as [| rc2 out2];
        [| destruct (rc2 =? 0)%Z]; simpl; rewrite <- !app_assoc; reflexivity.
    + intros Hdpkg.
      destruct (subprocess w _ (dpkg_install file_path)) as [| rc1 out1].
      * simpl. rewrite <- app_assoc. reflexivity.
      * destruct (Z.eqb_spec rc1 0) as [-> | _].
        -- exfalso. exact (Hdpkg out1 eq_refl).
        -- simpl. rewrite <- app_assoc. reflexivity.
Qed.

(** The three courses of the installer. *)
Lemma install_deb_fallback_witness :
  snd (install_deb "/tmp/thorium.deb" world_nala_install_fails [])
  = [EvRun (nala_install "/tmp/thorium.deb"); install_fallback_notice;
     EvRun (dpkg_install "/tmp/thorium.deb"); EvRun nala_fix_broken]
  /\ snd (install_deb "/tmp/thorium.deb" world_all_fail [])
     = [EvRun (nala_install "/tmp/thorium.deb"); install_fallback_notice;
        EvRun (dpkg_install "/tmp/thorium.deb")]
  /\ install_deb "/tmp/thorium.deb" world_all_succeed []
     = (Ok tt, [EvRun (nala_install "/tmp/thorium.deb")]).
Proof.
  split; [| split].
  - assert (Hrc : 100%Z <> 0%Z) by lia.
    apply (proj1 (proj2 (proj1 (install_deb_fallback "/tmp/thorium.deb"
                                  world_nala_install_fails [])
                           100%Z EmptyString eq_refl Hrc)) EmptyString).
    reflexivity.
  - assert (Hrc : 1%Z <> 0%Z) by lia.
    apply (proj2 (proj2 (proj1 (install_deb_fallback "/tmp/thorium.deb"
                                  world_all_fail [])
                           1%Z EmptyString eq_refl Hrc))).
    intros out' Hdpkg. discriminate Hdpkg.
  - apply (proj2 (install_deb_fallback "/tmp/thorium.deb" world_all_succeed [])
             EmptyString).
    reflexivity.
Defined.

(** C10.  In the fallback of the installer (the primary invocation has
    exited with a non-zero code): when the forced install exits with a
    non-zero code too, the installer raises [CalledProcessError] to its
    caller and the forced install is the last command it ran: the
    fix-broken invocation is not executed. *)
Theorem install_deb_dpkg_failure (file_path : string) (w : world) (h : history)
    (rc : Z) (out : string) (rc' : Z) (out' : string) :
  subprocess w h (nala_install file_path) = Exited rc out -> rc <> 0%Z ->
  subprocess w (at_install_fallback h file_path) (dpkg_install file_path)
  = Exited rc' out' ->
  rc' <> 0%Z ->
  install_deb file_path w h
  = (Raise CalledProcessError,
     h ++ [EvRun (nala_install file_path); install_fallback_notice;
           EvRun (dpkg_install file_path)]).
Proof.
  intros Hrun Hrc Hdpkg Hrc'.
  rewrite (install_deb_primary_failed file_path w h rc out Hrun Hrc).
  unfold bind, subprocess_run. rewrite Hdpkg.
  destruct (Z.eqb_spec rc' 0) as [H0 | _]; [contradiction |].
  unfold at_install_fallback. rewrite <- app_assoc. reflexivity.
Qed.

(** Both tools fail, after some history. *)
Lemma install_deb_dpkg_failure_witness :
  install_deb "/tmp/thorium.deb" world_all_fail [EvPrint "start"]
  = (Raise CalledProcessError,
     [EvPrint "start"; EvRun (nala_install "/tmp/thorium.deb");
      install_fallback_notice; EvRun (dpkg_install "/tmp/thorium.deb")]).
Proof.
  assert (Hrc : 1%Z <> 0%Z) by lia.
  exact (install_deb_dpkg_failure "/tmp/thorium.deb" world_all_fail
           [EvPrint "start"] 1%Z EmptyString 1%Z EmptyString
           eq_refl Hrc eq_refl Hrc).
Defined.

Lemma remove_package_primary_failed (package_name : string) w h rc out :
  subprocess w h (nala_remove package_name) = Exited rc out -> rc <> 0%Z ->
  snd (remove_package package_name w h)
  = h ++ [EvRun (nala_remove package_name); remove_fallback_notice;
          EvRun (dpkg_remove package_name)].
Proof.
  intros Hrun Hrc.
  unfold remove_package, try_except, bind, subprocess_run, print, emit, ret.
  fold (nala_remove package_name). fold (dpkg_remove package_name).
  rewrite Hrun. destruct (Z.eqb_spec rc 0) as [H0 | _]; [contradiction |].
  destruct (subprocess w _ (dpkg_remove package_name)) as [| rc1 out1];
    [| destruct (rc1 =? 0)%Z]; simpl; rewrite <- !app_assoc; reflexivity.
Qed.

Lemma remove_package_trace (package_name : string) w h :
  exists rest,
    snd (remove_package package_name w h)
    = h ++ EvRun (nala_remove package_name) :: rest
    /\ (rest = []
        \/ rest = [remove_fallback_notice; EvRun (dpkg_remove package_name)]).
Proof.
  destruct (subprocess w h (nala_remove package_name)) as [| rc out] eqn:Hrun.
  - exists []. split; [| left; reflexivity].
    unfold remove_package, try_except, bind, subprocess_run.
    fold (nala_remove package_name). rewrite Hrun. reflexivity.
  - destruct (Z.eqb_spec rc 0) as [-> | Hrc].
    + exists []. split; [| left; reflexivity].
      unfold remove_package, try_except, bind, subprocess_run.
      fold (nala_remove package_name). rewrite Hrun. reflexivity.
    + exists [remove_fallback_notice; EvRun (dpkg_remove package_name)].
      split; [| right; reflexivity].
      exact (remove_package_primary_failed package_name w h rc out Hrun Hrc).
Qed.




(** ** The downloader *)

Lemma join_download_path (url : string) :
  os_path_join destination_folder (last_segment url) = download_path url.
Proof.
  rewrite (join_destination_folder _ (last_segment_without_slash url)).
  reflexivity.
Qed.

Lemma download_file_eq (url folder : string) w h :
  download_file url folder w h
  = let path := os_path_join folder (last_segment url) in
    match http w h url with
    | Unreachable => (Raise ConnectionError, h ++ [EvGet url true])
    | Response r =>
        if error_status r then (Raise HTTPError, h ++ [EvGet url true])
        else if can_open_wb w (h ++ [EvGet url true]) path then
          (Ok path,
           h ++ [EvGet url true; EvOpen path]
             ++ map (EvWrite path) (iter_content r))
        else (Raise OSError, h ++ [EvGet url true; EvOpen path])
    end.
Proof.
  unfold download_file.
  rewrite (bind_ok _ _ w h (last_segment url) h)
    by (unfold lift; rewrite last_segment_getitem; reflexivity).
  cbv zeta. unfold bind at 1. unfold requests_get.
  destruct (http w h url) as [| r]; [reflexivity |].
  unfold bind at 1. unfold raise_for_status.
  destruct (error_status r); [reflexivity |].
  unfold ret at 1. unfold bind at 1. unfold open_wb.
  destruct (can_open_wb w (h ++ [EvGet url true])
              (os_path_join folder (last_segment url)));
    [| rewrite <- app_assoc; reflexivity].
  unfold bind. rewrite for_each_emit. unfold ret.
  rewrite <- !app_assoc. reflexivity.
Qed.

Lemma download_file_requests (url folder : string) w h :
  exists rest, snd (download_file url folder w h) = h ++ EvGet url true :: rest.
Proof.
  rewrite download_file_eq. cbv zeta.
  destruct (http w h url) as [| r]; [exists []; reflexivity |].
  destruct (error_status r); [exists []; reflexivity |].
  destruct (can_open_wb w _ _); eexists; reflexivity.
Qed.

Lemma after_resolution_proceeds (c : command) installed url v w h :
  getitem (split (last_segment url) "_") 1 = Ok v ->
  version_eq installed v = false ->
  after_resolution c installed url w h
  = download_and_install url "/home/kai/projects/renew-thorium" w
      (h ++ announce c installed v url).
Proof.
  intros Hv Hneq. rewrite after_resolution_eq, Hv, Hneq.
  unfold announce, bind, print, emit, ret.
  destruct (is_update c); simpl; rewrite <- ?app_assoc; reflexivity.
Qed.

Lemma main_proceeds (c : command) w installed h1 url h2 v :
  fetches c = true ->
  get_installed_version w [] = (Ok installed, h1) ->
  passes_update_guard c installed = true ->
  get_latest_deb_release "Alex313031" "Thorium" w h1 = (Ok (Some url), h2) ->
  getitem (split (last_segment url) "_") 1 = Ok v ->
  version_eq installed v = false ->
  main c w []
  = download_and_install url "/home/kai/projects/renew-thorium" w
      (h2 ++ announce c installed v url).
Proof.
  intros Hc Hprobe Hguard Hres Hv Hneq.
  rewrite (main_resolved c w installed h1 url h2 Hc Hprobe Hguard Hres
             (extracted_url_not_empty url v Hv)).
  exact (after_resolution_proceeds c installed url v w h2 Hv Hneq).
Qed.

Lemma emits_download_and_install (P : event -> bool) (url : string) :
  (forall line, P (EvPrint line) = true) ->
  (forall args, P (EvRun ("sudo" :: args)) = true) ->
  P (EvGet url true) = true ->
  P (EvOpen (download_path url)) = true ->
  (forall chunk, P (EvWrite (download_path url) chunk) = true) ->
  emits P (download_and_install url "/home/kai/projects/renew-thorium").
Proof.
  intros Hprint Hsudo Hget Hopen Hwrite. unfold download_and_install.
  apply emits_bind.
  - apply emits_download_file; fold destination_folder;
      rewrite ?join_download_path; assumption.
  - intros path. apply emits_bind; [apply emits_install_deb; assumption |].
    intros _. apply emits_print, Hprint.
Qed.

(** ** The temporary directory is not read *)

Section TempdirFree.

Lemma tempdir_free_ret {A : Type} (a : A) : tempdir_free (ret a).
Proof. intros w t h. reflexivity. Qed.

Lemma tempdir_free_lift {A : Type} (r : result A) : tempdir_free (lift r).
Proof. intros w t h. reflexivity. Qed.

Lemma tempdir_free_emit (e : event) : tempdir_free (emit e).
Proof. intros w t h. reflexivity. Qed.

Lemma tempdir_free_subprocess_run (argv : list string) :
  tempdir_free (subprocess_run argv).
Proof. intros w t h. reflexivity. Qed.

Lemma tempdir_free_requests_get (url : string) (stream : bool) :
  tempdir_free (requests_get url stream).
Proof. intros w t h. reflexivity. Qed.

Lemma tempdir_free_open_wb (path : string) : tempdir_free (open_wb path).
Proof. intros w t h. reflexivity. Qed.

Lemma tempdir_free_raise_for_status (r : response) :
  tempdir_free (raise_for_status r).
Proof.
  intros w t h. unfold raise_for_status.
  destruct (error_status r); reflexivity.
Qed.

Lemma tempdir_free_bind {A B : Type} (m : M A) (f : A -> M B) :
  tempdir_free m -> (forall a, tempdir_free (f a)) -> tempdir_free (bind m f).
Proof.
  intros Hm Hf w t h. unfold bind. rewrite Hm.
  destruct (m w h) as [[a | e] h']; [apply Hf | reflexivity].
Qed.

Lemma tempdir_free_try_except {A : Type} (body : M A)
    (handler : exn -> option (M A)) :
  tempdir_free body -> (forall e k, handler e = Some k -> tempdir_free k) ->
  tempdir_free (try_except body handler).
Proof.
  intros Hbody Hhandler w t h. unfold try_except. rewrite Hbody.
  destruct (body w h) as [[a | e] h']; [reflexivity |].
  destruct (handler e) as [k |] eqn:Hk; [| reflexivity].
  apply (Hhandler e k Hk).
Qed.

Lemma tempdir_free_for_each {A : Type} (xs : list A) (body : A -> M unit) :
  (forall x, tempdir_free (body x)) -> tempdir_free (for_each xs body).
Proof.
  intros Hbody. induction xs as [| x xs IH]; simpl.
  - apply tempdir_free_ret.
  - apply tempdir_free_bind; [apply Hbody | intros _; exact IH].
Qed.

Ltac tempdir_free_step :=
  first
    [ apply tempdir_free_ret | apply tempdir_free_lift
    | apply tempdir_free_emit | apply tempdir_free_subprocess_run
    | apply tempdir_free_requests_get | apply tempdir_free_open_wb
    | apply tempdir_free_raise_for_status
    | apply tempdir_free_bind; [| intro]
    | apply tempdir_free_for_each; intro ].

Lemma tempdir_free_get_installed_version : tempdir_free get_installed_version.
Proof.
  unfold get_installed_version. apply tempdir_free_try_except.
  - tempdir_free_step; [tempdir_free_step |]. cbv zeta.
    destruct (startswith _ _); repeat tempdir_free_step.
  - intros e k Hk. destruct e; inversion Hk; subst k; unfold print;
      repeat tempdir_free_step.
Qed.

Lemma tempdir_free_get_latest_deb_release (owner repo : string) :
  tempdir_free (get_latest_deb_release owner repo).
Proof.
  unfold get_latest_deb_release. tempdir_free_step; [tempdir_free_step |].
  destruct (negb _); unfold print; repeat tempdir_free_step.
Qed.

Lemma tempdir_free_install_deb (file_path : string) :
  tempdir_free (install_deb file_path).
Proof.
  unfold install_deb. apply tempdir_free_try_except.
  - repeat tempdir_free_step.
  - intros e k Hk. destruct e; inversion Hk; subst k; unfold print;
      repeat tempdir_free_step.
Qed.

Lemma tempdir_free_remove_package (package_name : string) :
  tempdir_free (remove_package package_name).
Proof.
  unfold remove_package. apply tempdir_free_try_except.
  - repeat tempdir_free_step.
  - intros e k Hk. destruct e; inversion Hk; subst k; unfold print;
      repeat tempdir_free_step.
Qed.

Lemma tempdir_free_download_file (url folder : string) :
  tempdir_free (download_file url folder).
Proof. unfold download_file. cbv zeta. repeat tempdir_free_step. Qed.

(** [main] binds [temp_dir] and never reads it. *)
Lemma main_ignores_tempdir (c : command) (w : world) (t : string) :
  main c (with_tempdir t w) [] = main c w [].
Proof.
  unfold main.
  rewrite (bind_ok tempfile_gettempdir _ (with_tempdir t w) [] t [])
    by reflexivity.
  rewrite (bind_ok tempfile_gettempdir _ w [] (gettempdir w) [])
    by reflexivity.
  revert w t. generalize (@nil event).
  intros h w t. revert w t h. change (tempdir_free
    (match c with
     | Install | Update =>
         installed_version <- get_installed_version ;;
         (if is_update c && is_None installed_version then
            print "Thorium is not installed. Use 'install' command to install it."
          else
            latest_deb_url <- get_latest_deb_release "Alex313031" "Thorium" ;;
            match latest_deb_url with
            | None => print "No .deb release found"
            | Some url =>
                if (url =? EmptyString) then print "No .deb release found"
                else after_resolution c installed_version url
            end)
     | Remove => remove_package "thorium-browser"
     end)).
  assert (Hafter : forall installed url,
             tempdir_free (after_resolution c installed url)).
  { intros installed url. unfold after_resolution.
    tempdir_free_step; [tempdir_free_step |].
    tempdir_free_step; [tempdir_free_step |].
    destruct (version_eq _ _); unfold print; [tempdir_free_step |].
    tempdir_free_step; [destruct (is_update c); tempdir_free_step |].
    tempdir_free_step; [tempdir_free_step |].
    tempdir_free_step; [apply tempdir_free_download_file |].
    tempdir_free_step; [apply tempdir_free_install_deb | tempdir_free_step]. }
  assert (Hflow : tempdir_free
    (installed_version <- get_installed_version ;;
     (if is_update c && is_None installed_version then
        print "Thorium is not installed. Use 'install' command to install it."
      else
        latest_deb_url <- get_latest_deb_release "Alex313031" "Thorium" ;;
        match latest_deb_url with
        | None => print "No .deb release found"
        | Some url =>
            if (url =? EmptyString) then print "No .deb release found"
            else after_resolution c installed_version url
        end))).
  { apply tempdir_free_bind; [apply tempdir_free_get_installed_version |].
    intros installed. destruct (is_update c && is_None installed);
      [unfold print; tempdir_free_step |].
    apply tempdir_free_bind; [apply tempdir_free_get_latest_deb_release |].
    intros [url |]; [| unfold print; tempdir_free_step].
    destruct (url =? EmptyString); [unfold print; tempdir_free_step |].
    apply Hafter. }
  destruct c; [exact Hflow | apply tempdir_free_remove_package | exact Hflow].
Qed.
End TempdirFree.

(** ** Extraction of the latest version and the download *)

(** C7.  The extraction of the latest version is not guarded: for
    [install] and [update], when the final path segment of the resolved URL
    holds no underscore, the index [1] raises [IndexError]; [main] ends
    with that exception, right after the resolution. *)
Theorem unguarded_version_extraction (c : command) w installed h1 url h2 :
  fetches c = true ->
  get_installed_version w [] = (Ok installed, h1) ->
  passes_update_guard c installed = true ->
  get_latest_deb_release "Alex313031" "Thorium" w h1 = (Ok (Some url), h2) ->
  url <> EmptyString ->
  contains (last_segment url) "_" = false ->
  main c w [] = (Raise IndexError, h2).
Proof.
  intros Hc Hprobe Hguard Hres Hurl Hconv.
  rewrite (main_resolved c w installed h1 url h2 Hc Hprobe Hguard Hres Hurl).
  rewrite after_resolution_eq, (split_without_sep _ _ Hconv).
  reflexivity.
Qed.

(** A release whose package is named without underscore. *)
Lemma unguarded_version_extraction_witness :
  main Install world_unconventional []
  = (Raise IndexError,
     [EvRun probe_argv; EvPrint "Thorium browser is not installed.";
      EvGet thorium_api false]).
Proof.
  apply (unguarded_version_extraction Install world_unconventional None
           [EvRun probe_argv; EvPrint "Thorium browser is not installed."]
           unconventional_url);
    try reflexivity.
  discriminate.
Defined.

(** C8.  On every [install] or [update] run that reaches the download
    (the guard of [update] passed, a URL was resolved, a version token was
    extracted from it and differs from the installed version): the
    dispatcher hands the downloader the folder
    [/home/kai/projects/renew-thorium]; every file the run opens or writes
    is that folder joined with the final path segment of the URL; a
    download that is served is written there, chunk by chunk; and the run
    is the same whatever the temporary directory is. *)
Theorem download_goes_to_fixed_folder (c : command) w installed h1 url h2 v :
  fetches c = true ->
  get_installed_version w [] = (Ok installed, h1) ->
  passes_update_guard c installed = true ->
  get_latest_deb_release "Alex313031" "Thorium" w h1 = (Ok (Some url), h2) ->
  getitem (split (last_segment url) "_") 1 = Ok v ->
  version_eq installed v = false ->
  main c w []
  = download_and_install url "/home/kai/projects/renew-thorium" w
      (h2 ++ announce c installed v url)
  /\ forallb
       (files_at ("/home/kai/projects/renew-thorium/" ++ last_segment url))
       (snd (main c w [])) = true
  /\ (forall r,
      http w (h2 ++ announce c installed v url) url = Response r ->
      error_status r = false ->
      can_open_wb w (h2 ++ announce c installed v url ++ [EvGet url true])
        ("/home/kai/projects/renew-thorium/" ++ last_segment url) = true ->
      exists rest,
        snd (main c w [])
        = h2 ++ announce c installed v url
            ++ [EvGet url true;
                EvOpen ("/home/kai/projects/renew-thorium/" ++ last_segment url)]
            ++ map (EvWrite ("/home/kai/projects/renew-thorium/"
                             ++ last_segment url)) (iter_content r)
            ++ rest)
  /\ (forall t, main c (with_tempdir t w) [] = main c w []).
Proof.
  intros Hc Hprobe Hguard Hres Hv Hneq.
  pose proof (main_proceeds c w installed h1 url h2 v Hc Hprobe Hguard Hres
                Hv Hneq) as Hmain.
  fold (download_path url).
  split; [exact Hmain |].
  split; [| split; [| intros t; apply main_ignores_tempdir]].
  - rewrite Hmain.
    destruct (emitted (files_at (download_path url)) _ _ _ _ _
                (emits_get_installed_version _ (fun _ => eq_refl) eq_refl)
                Hprobe) as [evs1 [-> Hall1]].
    destruct (emitted (files_at (download_path url)) _ _ _ _ _
                (emits_get_latest_deb_release _ (fun _ => eq_refl) _ _ eq_refl)
                Hres) as [evs2 [-> Hall2]].
    destruct (emits_download_and_install (files_at (download_path url)) url
                (fun _ => eq_refl) (fun _ => eq_refl) eq_refl
                (String.eqb_refl _) (fun _ => String.eqb_refl _)
                w ((([] ++ evs1) ++ evs2) ++ announce c installed v url))
      as [evs3 [Htr Hall3]].
    rewrite Htr.
    rewrite !forallb_app, Hall1, Hall2, Hall3.
    unfold announce. destruct (is_update c); reflexivity.
  - intros r Hget Hstatus Hopen. rewrite Hmain.
    unfold download_and_install. unfold bind at 1.
    rewrite download_file_eq. fold destination_folder.
    rewrite join_download_path. cbv zeta.
    rewrite Hget, Hstatus. rewrite <- app_assoc, Hopen.
    match goal with
    | |- context [install_deb ?p ;;; ?k] =>
        destruct (emits_bind (fun _ => true) (install_deb p) (fun _ => k)
                    (emits_install_deb _ (fun _ => eq_refl) p (fun _ => eq_refl))
                    (fun _ => emits_print _ (fun _ => eq_refl) _)
                    w ((h2 ++ announce c installed v url)
                       ++ [EvGet url true; EvOpen (download_path url)]
                       ++ map (EvWrite (download_path url)) (iter_content r)))
          as [rest [Htr _]]
    end.
    exists rest. rewrite Htr, <- !app_assoc. reflexivity.
Qed.

(** A first installation, with [/tmp] and with [/var/tmp] as the
    temporary directory. *)
Lemma download_goes_to_fixed_folder_witness :
  forallb
    (files_at "/home/kai/projects/renew-thorium/thorium-browser_117.0.5938.157_amd64.deb")
    (snd (main Install world_fresh_install [])) = true
  /\ (exists rest,
      snd (main Install world_fresh_install [])
      = [EvRun probe_argv; EvPrint "Thorium browser is not installed.";
         EvGet thorium_api false]
          ++ announce Install None "117.0.5938.157" good_url
          ++ [EvGet good_url true;
              EvOpen "/home/kai/projects/renew-thorium/thorium-browser_117.0.5938.157_amd64.deb"]
          ++ map (EvWrite "/home/kai/projects/renew-thorium/thorium-browser_117.0.5938.157_amd64.deb")
               ["chunk-1"; "chunk-2"]
          ++ rest)
  /\ main Install (with_tempdir "/var/tmp" world_fresh_install) []
     = main Install world_fresh_install [].
Proof.
  pose proof (download_goes_to_fixed_folder Install world_fresh_install None
                [EvRun probe_argv; EvPrint "Thorium browser is not installed."]
                good_url
                [EvRun probe_argv; EvPrint "Thorium browser is not installed.";
                 EvGet thorium_api false]
                "117.0.5938.157"
                eq_refl eq_refl eq_refl eq_refl eq_refl eq_refl)
    as [_ [Hfiles [Hserved Htemp]]].
  split; [exact Hfiles | split; [| exact (Htemp "/var/tmp")]].
  exact (Hserved {| status_code := 200;
                    json := {| assets := Some [deb_asset] |};
                    iter_content := ["chunk-1"; "chunk-2"] |}
           eq_refl eq_refl eq_refl).
Defined.

Lemma bind_keeps {A B : Type} (m : M A) (f : A -> M B) w h (e : event) :
  (forall a, emits (fun _ => true) (f a)) ->
  In e (snd (m w h)) -> In e (snd (bind m f w h)).
Proof.
  intros Hf Hin. unfold bind.
  destruct (m w h) as [[a | x] h']; [| exact Hin].
  destruct (Hf a w h') as [evs [Htr _]]. rewrite Htr.
  apply in_or_app. left. exact Hin.
Qed.

Lemma install_deb_starts (file_path : string) w h :
  exists rest,
    snd (install_deb file_path w h) = h ++ EvRun (nala_install file_path) :: rest.
Proof.
  destruct (subprocess w h (nala_install file_path)) as [| rc out] eqn:Hrun.
  - exists []. unfold install_deb, try_except, bind, subprocess_run.
    fold (nala_install file_path). rewrite Hrun. reflexivity.
  - destruct (Z.eqb_spec rc 0) as [-> | Hrc].
    + exists []. rewrite (install_deb_primary_ok file_path w h out Hrun).
      reflexivity.
    + rewrite (install_deb_primary_failed file_path w h rc out Hrun Hrc).
      match goal with
      | |- context [snd (?k w (at_install_fallback h file_path))] =>
          assert (Hk : emits (fun _ => true) k)
      end.
      { apply emits_bind; [apply emits_subprocess_run; reflexivity | intros _].
        apply emits_bind; [apply emits_subprocess_run; reflexivity | intros _].
        apply emits_ret. }
      destruct (Hk w (at_install_fallback h file_path)) as [evs [Htr _]].
      exists (install_fallback_notice :: evs). rewrite Htr.
      unfold at_install_fallback. rewrite <- app_assoc. reflexivity.
Qed.

(** C9, as stated, fails: with nothing installed and a [.deb] URL resolved,
    the run may end before the download (the file name of the URL has no
    underscore, and the extraction raises), or after a download that the
    server refuses, without any installation. *)
Lemma install_absent_may_stop_early :
  (get_installed_version world_unconventional []
   = (Ok None, [EvRun probe_argv; EvPrint "Thorium browser is not installed."])
   /\ fst (get_latest_deb_release "Alex313031" "Thorium" world_unconventional
             [EvRun probe_argv; EvPrint "Thorium browser is not installed."])
      = Ok (Some unconventional_url)
   /\ endswith unconventional_url ".deb" = true
   /\ main Install world_unconventional []
      = (Raise IndexError,
         [EvRun probe_argv; EvPrint "Thorium browser is not installed.";
          EvGet thorium_api false])
   /\ forallb no_download_no_install
        (snd (main Install world_unconventional [])) = true)
  /\ (get_installed_version world_download_refused []
      = (Ok None, [EvRun probe_argv; EvPrint "Thorium browser is not installed."])
      /\ fst (get_latest_deb_release "Alex313031" "Thorium" world_download_refused
                [EvRun probe_argv; EvPrint "Thorium browser is not installed."])
         = Ok (Some good_url)
      /\ main Install world_download_refused []
         = (Raise HTTPError,
            [EvRun probe_argv; EvPrint "Thorium browser is not installed.";
             EvGet thorium_api false;
             EvPrint ("Latest .deb release URL: " ++ good_url);
             EvGet good_url true])
      /\ forallb (fun e => negb (package_event e))
           (snd (main Install world_download_refused [])) = true).
Proof.
  repeat match goal with |- _ /\ _ => split end; reflexivity.
Qed.

(** C9, amended.  For [install], when the prober returns [None], a URL is
    resolved and a version token is extracted from it: the equality check
    fails, the dispatcher goes on to the download, whose request is always
    made, and whenever the downloader returns a path the installer is
    invoked on that path. *)
Theorem install_when_absent (w : world) h1 url h2 v :
  get_installed_version w [] = (Ok None, h1) ->
  get_latest_deb_release "Alex313031" "Thorium" w h1 = (Ok (Some url), h2) ->
  getitem (split (last_segment url) "_") 1 = Ok v ->
  version_eq None v = false
  /\ main Install w []
     = download_and_install url "/home/kai/projects/renew-thorium" w
         (h2 ++ [EvPrint ("Latest .deb release URL: " ++ url)])
  /\ In (EvGet url true) (snd (main Install w []))
  /\ (forall path h4,
      download_file url "/home/kai/projects/renew-thorium" w
        (h2 ++ [EvPrint ("Latest .deb release URL: " ++ url)]) = (Ok path, h4) ->
      In (EvRun (nala_install path)) (snd (main Install w []))).
Proof.
  intros Hprobe Hres Hv.
  pose proof (main_proceeds Install w None h1 url h2 v eq_refl Hprobe eq_refl
                Hres Hv eq_refl) as Hmain.
  change (announce Install None v url)
    with [EvPrint ("Latest .deb release URL: " ++ url)] in Hmain.
  assert (Hnext : forall path,
             emits (fun _ => true)
               (install_deb path ;;; print ("Installed " ++ path))).
  { intros path. apply emits_bind.
    - apply emits_install_deb; reflexivity.
    - intros _. apply emits_print. reflexivity. }
  split; [reflexivity | split; [exact Hmain | split]].
  - rewrite Hmain. unfold download_and_install.
    apply bind_keeps; [exact Hnext |].
    destruct (download_file_requests url "/home/kai/projects/renew-thorium" w
                (h2 ++ [EvPrint ("Latest .deb release URL: " ++ url)]))
      as [rest Htr].
    rewrite Htr. apply in_or_app. right. left. reflexivity.
  - intros path h4 Hdl. rewrite Hmain. unfold download_and_install.
    rewrite (bind_ok _ _ _ _ _ _ Hdl).
    apply bind_keeps; [intros _; apply emits_print; reflexivity |].
    destruct (install_deb_starts path w h4) as [rest Htr].
    rewrite Htr. apply in_or_app. right. left. reflexivity.
Qed.

(** A first installation that is served. *)
Lemma install_when_absent_witness :
  version_eq None "117.0.5938.157" = false
  /\ In (EvGet good_url true) (snd (main Install world_fresh_install []))
  /\ In (EvRun (nala_install
                  "/home/kai/projects/renew-thorium/thorium-browser_117.0.5938.157_amd64.deb"))
        (snd (main Install world_fresh_install [])).
Proof.
  pose proof (install_when_absent world_fresh_install
                [EvRun probe_argv; EvPrint "Thorium browser is not installed."]
                good_url
                [EvRun probe_argv; EvPrint "Thorium browser is not installed.";
                 EvGet thorium_api false]
                "117.0.5938.157" eq_refl eq_refl eq_refl)
    as [Hneq [_ [Hget Hinstall]]].
  split; [exact Hneq | split; [exact Hget |]].
  apply (Hinstall
           "/home/kai/projects/renew-thorium/thorium-browser_117.0.5938.157_amd64.deb"
           [EvRun probe_argv; EvPrint "Thorium browser is not installed.";
            EvGet thorium_api false;
            EvPrint ("Latest .deb release URL: " ++ good_url);
            EvGet good_url true;
            EvOpen "/home/kai/projects/renew-thorium/thorium-browser_117.0.5938.157_amd64.deb";
            EvWrite "/home/kai/projects/renew-thorium/thorium-browser_117.0.5938.157_amd64.deb" "chunk-1";
            EvWrite "/home/kai/projects/renew-thorium/thorium-browser_117.0.5938.157_amd64.deb" "chunk-2"]).
  reflexivity.
Defined.


(** * Further properties of the script *)

(** ** More facts about strings and indexing *)


Lemma getitem_second_inv {A : Type} (l : list A) (x : A) :
  getitem l 1 = Ok x -> exists a rest, l = a :: x :: rest.
Proof.
  intros Hget. destruct l as [| a [| b rest]].
  - discriminate Hget.
  - discriminate Hget.
  - rewrite getitem_second in Hget. inversion Hget; subst b.
    exists a, rest. reflexivity.
Qed.

Lemma split_app (a b : string) (sep : ascii) :
  split (a ++ String sep b) sep = split a sep ++ split b sep.
Proof.
  induction a as [| c a IH]; simpl.
  - rewrite Ascii.eqb_refl. reflexivity.
  - destruct (Ascii.eqb c sep).
    + rewrite IH. reflexivity.
    + rewrite IH. pose proof (split_not_nil a sep) as Hne.
      destruct (split a sep) as [| f fs]; [contradiction | reflexivity].
Qed.

Lemma contains_app (a b : string) (sep : ascii) :
  contains (a ++ b) sep = contains a sep || contains b sep.
Proof.
  induction a as [| c a IH]; simpl; [reflexivity |].
  rewrite IH, orb_assoc. reflexivity.
Qed.

Lemma last_segment_app (a b : string) :
  last_segment (a ++ String "/" b) = last_segment b.
Proof.
  unfold last_segment. rewrite split_app.
  pose proof (split_not_nil b "/") as Hne.
  destruct (exists_last Hne) as [front [x Hb]]. rewrite Hb.
  rewrite app_assoc, !last_last. reflexivity.
Qed.

Lemma last_segment_plain (s : string) :
  contains s "/" = false -> last_segment s = s.
Proof.
  intros Hs. unfold last_segment. rewrite (split_without_sep _ _ Hs).
  reflexivity.
Qed.


(** ** The version prober, further *)

(** X1.  Whatever the probe does, the prober launches it once, prints at
    most one line after it and does nothing else; the two failures that
    its [except] clauses name, [CalledProcessError] and
    [FileNotFoundError], never leave it. *)
Theorem prober_runs_once_and_catches_probe_failures (w : world) (h : history) :
  (exists prints,
      snd (get_installed_version w h) = h ++ EvRun probe_argv :: prints
      /\ forallb is_print prints = true
      /\ (List.length prints <= 1)%nat)
  /\ fst (get_installed_version w h) <> Raise CalledProcessError
  /\ fst (get_installed_version w h) <> Raise FileNotFoundError.
Proof.
  unfold get_installed_version, try_except, bind, subprocess_run, lift, ret,
    print, emit.
  destruct (subprocess w h probe_argv) as [| rc out].
  - split; [| split; simpl; discriminate].
    eexists. rewrite <- app_assoc. split; [reflexivity |].
    split; [reflexivity | simpl; lia].
  - destruct (rc =? 0)%Z.
    + destruct (startswith (strip out) "Thorium").
      * destruct (getitem (split_ws (strip out)) 1) as [v | e] eqn:Hget.
        -- split; [| split; simpl; discriminate].
           exists []. split; [reflexivity |]. split; [reflexivity | simpl; lia].
        -- assert (He : e = IndexError).
           { unfold getitem in Hget.
             destruct ((_ <? 0) || (_ <=? _))%Z;
               [| destruct (nth_error _ _)]; congruence. }
           subst e. split; [| split; simpl; discriminate].
           exists []. split; [reflexivity |]. split; [reflexivity | simpl; lia].
      * split; [| split; simpl; discriminate].
        exists []. split; [reflexivity |]. split; [reflexivity | simpl; lia].
    + split; [| split; simpl; discriminate].
      eexists. rewrite <- app_assoc. split; [reflexivity |].
      split; [reflexivity | simpl; lia].
Qed.



(** ** The installer and the remover, further *)

Lemma remove_package_fallback (package_name : string) w h rc out :
  subprocess w h (nala_remove package_name) = Exited rc out -> rc <> 0%Z ->
  remove_package package_name w h
  = (subprocess_run (dpkg_remove package_name) ;;; ret tt)
      w (at_remove_fallback h package_name).
Proof.
  intros Hrun Hrc. unfold remove_package, try_except.
  rewrite (bind_raise _ _ w h CalledProcessError
             (h ++ [EvRun (nala_remove package_name)])).
  - rewrite (bind_ok _ _ w _ tt (at_remove_fallback h package_name)).
    + reflexivity.
    + unfold print, emit, at_remove_fallback. rewrite <- app_assoc.
      reflexivity.
  - unfold subprocess_run. fold (nala_remove package_name). rewrite Hrun.
    destruct (Z.eqb_spec rc 0) as [H0 | _]; [contradiction | reflexivity].
Qed.



(** X4.  The installer returns normally in two cases only: the primary
    invocation exits with 0, or it exits with a non-zero code and both
    commands of the fallback, the forced install and then the fix-broken
    invocation, exit with 0. *)
Theorem install_deb_returns_iff (file_path : string) (w : world) (h : history) :
  fst (install_deb file_path w h) = Ok tt
  <-> ((exists out, subprocess w h (nala_install file_path) = Exited 0 out)
       \/ (exists rc out out1 out2,
              subprocess w h (nala_install file_path) = Exited rc out
              /\ rc <> 0%Z
              /\ subprocess w (at_install_fallback h file_path)
                   (dpkg_install file_path) = Exited 0 out1
              /\ subprocess w (at_fix_broken h file_path) nala_fix_broken
                 = Exited 0 out2)).
Proof.
  destruct (subprocess w h (nala_install file_path)) as [| rc out] eqn:Hrun.
  - split.
    + unfold install_deb, try_except, bind, subprocess_run.
      fold (nala_install file_path). rewrite Hrun. intros H. discriminate H.
    + intros [[out H] | [rc [out [out1 [out2 [H _]]]]]]; discriminate H.
  - destruct (Z.eqb_spec rc 0) as [-> | Hrc].
    + rewrite (install_deb_primary_ok file_path w h out Hrun).
      split; [intros _; left; exists out; reflexivity | reflexivity].
    + rewrite (install_deb_primary_failed file_path w h rc out Hrun Hrc).
      unfold bind, subprocess_run, ret. fold (at_fix_broken h file_path).
      destruct (subprocess w (at_install_fallback h file_path)
                  (dpkg_install file_path)) as [| rc1 out1] eqn:Hdpkg.
      * split; [intros H; discriminate H |].
        intros [[out0 H] | [rc0 [out0 [o1 [o2 [_ [_ [H _]]]]]]]];
          [inversion H; subst; contradiction | discriminate H].
      * destruct (Z.eqb_spec rc1 0) as [-> | Hrc1].
        -- destruct (subprocess w (at_fix_broken h file_path) nala_fix_broken)
             as [| rc2 out2] eqn:Hfix.
           ++ split; [intros H; discriminate H |].
              intros [[out0 H] | [rc0 [out0 [o1 [o2 [_ [_ [_ H]]]]]]]];
                [inversion H; subst; contradiction | discriminate H].
           ++ destruct (Z.eqb_spec rc2 0) as [-> | Hrc2].
              ** split; [| reflexivity].
                 intros _. right. exists rc, out, out1, out2.
                 repeat split; assumption.
              ** split; [intros H; discriminate H |].
                 intros [[out0 H] | [rc0 [out0 [o1 [o2 [_ [_ [_ H]]]]]]]];
                   [inversion H; subst; contradiction
                   | inversion H; subst; contradiction].
        -- split; [intros H; discriminate H |].
           intros [[out0 H] | [rc0 [out0 [o1 [o2 [_ [_ [H _]]]]]]]];
             [inversion H; subst; contradiction
             | inversion H; subst; contradiction].
Qed.

(** The fallback carries the installation through; a failing fallback does
    not. *)
Lemma install_deb_returns_iff_witness :
  fst (install_deb "/tmp/thorium.deb" world_nala_install_fails []) = Ok tt
  /\ fst (install_deb "/tmp/thorium.deb" world_all_fail []) <> Ok tt.
Proof.
  split.
  - apply (proj2 (install_deb_returns_iff "/tmp/thorium.deb"
                    world_nala_install_fails [])).
    right. exists 100%Z, EmptyString, EmptyString, EmptyString.
    repeat split. lia.
  - intros Hok.
    destruct (proj1 (install_deb_returns_iff "/tmp/thorium.deb"
                       world_all_fail []) Hok)
      as [[out H] | [rc [out [out1 [out2 [_ [_ [H _]]]]]]]];
      discriminate H.
Defined.

(** X5.  The remover returns normally in two cases only: the primary
    remove exits with 0, or it exits with a non-zero code and the remove of
    the low-level tool exits with 0; a failure of the low-level tool is not
    caught. *)
Theorem remove_package_returns_iff (package_name : string) (w : world)
    (h : history) :
  fst (remove_package package_name w h) = Ok tt
  <-> ((exists out, subprocess w h (nala_remove package_name) = Exited 0 out)
       \/ (exists rc out out1,
              subprocess w h (nala_remove package_name) = Exited rc out
              /\ rc <> 0%Z
              /\ subprocess w (at_remove_fallback h package_name)
                   (dpkg_remove package_name) = Exited 0 out1)).
Proof.
  destruct (subprocess w h (nala_remove package_name)) as [| rc out] eqn:Hrun.
  - split.
    + unfold remove_package, try_except, bind, subprocess_run.
      fold (nala_remove package_name). rewrite Hrun. intros H. discriminate H.
    + intros [[out H] | [rc [out [out1 [H _]]]]]; discriminate H.
  - destruct (Z.eqb_spec rc 0) as [-> | Hrc].
    + split; [intros _; left; exists out; reflexivity |].
      intros _. unfold remove_package, try_except, bind, subprocess_run.
      fold (nala_remove package_name). rewrite Hrun. reflexivity.
    + rewrite (remove_package_fallback package_name w h rc out Hrun Hrc).
      unfold bind, subprocess_run, ret.
      destruct (subprocess w (at_remove_fallback h package_name)
                  (dpkg_remove package_name)) as [| rc1 out1] eqn:Hdpkg.
      * split; [intros H; discriminate H |].
        intros [[out0 H] | [rc0 [out0 [o1 [_ [_ H]]]]]];
          [inversion H; subst; contradiction | discriminate H].
      * destruct (Z.eqb_spec rc1 0) as [-> | Hrc1].
        -- split; [| reflexivity].
           intros _. right. exists rc, out, out1. repeat split; assumption.
        -- split; [intros H; discriminate H |].
           intros [[out0 H] | [rc0 [out0 [o1 [_ [_ H]]]]]];
             [inversion H; subst; contradiction
             | inversion H; subst; contradiction].
Qed.

(** The low-level tool carries the removal through; when it fails too the
    removal fails. *)
Lemma remove_package_returns_iff_witness :
  fst (remove_package "thorium-browser" world_only_dpkg_works []) = Ok tt
  /\ fst (remove_package "thorium-browser" world_all_fail []) <> Ok tt.
Proof.
  split.
  - apply (proj2 (remove_package_returns_iff "thorium-browser"
                    world_only_dpkg_works [])).
    right. exists 100%Z, EmptyString, EmptyString. repeat split. lia.
  - intros Hok.
    destruct (proj1 (remove_package_returns_iff "thorium-browser"
                       world_all_fail []) Hok)
      as [[out H] | [rc [out [out1 [_ [_ H]]]]]];
      discriminate H.
Defined.

(** ** The downloader, further *)

(** X6.  The downloader returns a path only when the request was
    answered with a status outside 400..599 (200 is not required) and the
    file was opened; the path is then the folder joined with the final
    segment of the URL, and the run of the downloader is the request, the
    opening of that file and the writing of every chunk of the body, in the
    order of the body. *)
Theorem download_file_returns_only_when (url folder : string) (w : world)
    (h : history) (path : string) (h' : history) :
  download_file url folder w h = (Ok path, h') ->
  exists r,
    http w h url = Response r
    /\ error_status r = false
    /\ can_open_wb w (h ++ [EvGet url true])
         (os_path_join folder (last_segment url)) = true
    /\ path = os_path_join folder (last_segment url)
    /\ h' = h ++ [EvGet url true; EvOpen path]
              ++ map (EvWrite path) (iter_content r).
Proof.
  rewrite download_file_eq. cbv zeta.
  destruct (http w h url) as [| r] eqn:Hget; [intros H; discriminate H |].
  destruct (error_status r) eqn:Hst; [intros H; discriminate H |].
  destruct (can_open_wb w (h ++ [EvGet url true])
              (os_path_join folder (last_segment url))) eqn:Hopen;
    [| intros H; discriminate H].
  intros H. inversion H; subst. exists r. repeat split; assumption.
Qed.

(** A download answered with status 200 and a body of two chunks. *)
Lemma download_file_returns_only_when_witness :
  exists r,
    http world_fresh_install [] good_url = Response r
    /\ error_status r = false
    /\ can_open_wb world_fresh_install ([] ++ [EvGet good_url true])
         (os_path_join "/tmp" (last_segment good_url)) = true
    /\ "/tmp/thorium-browser_117.0.5938.157_amd64.deb"
       = os_path_join "/tmp" (last_segment good_url)
    /\ [EvGet good_url true;
        EvOpen "/tmp/thorium-browser_117.0.5938.157_amd64.deb";
        EvWrite "/tmp/thorium-browser_117.0.5938.157_amd64.deb" "chunk-1";
        EvWrite "/tmp/thorium-browser_117.0.5938.157_amd64.deb" "chunk-2"]
       = [] ++ [EvGet good_url true;
                EvOpen "/tmp/thorium-browser_117.0.5938.157_amd64.deb"]
            ++ map (EvWrite "/tmp/thorium-browser_117.0.5938.157_amd64.deb")
                 (iter_content r).
Proof.
  exact (download_file_returns_only_when good_url "/tmp" world_fresh_install []
           "/tmp/thorium-browser_117.0.5938.157_amd64.deb"
           [EvGet good_url true;
            EvOpen "/tmp/thorium-browser_117.0.5938.157_amd64.deb";
            EvWrite "/tmp/thorium-browser_117.0.5938.157_amd64.deb" "chunk-1";
            EvWrite "/tmp/thorium-browser_117.0.5938.157_amd64.deb" "chunk-2"]
           eq_refl).
Defined.

(** X7.  A download that is not served leaves the file system alone: when
    the request cannot be made the downloader raises [ConnectionError], and
    when it is answered with a status in 400..599 it raises [HTTPError]; in
    both cases the request is its only event.  When the file cannot be
    opened, it raises [OSError] and nothing is written. *)
Theorem download_file_failures (url folder : string) (w : world) (h : history) :
  (http w h url = Unreachable ->
   download_file url folder w h = (Raise ConnectionError, h ++ [EvGet url true]))
  /\ (forall r,
      http w h url = Response r -> error_status r = true ->
      download_file url folder w h = (Raise HTTPError, h ++ [EvGet url true]))
  /\ (forall r,
      http w h url = Response r -> error_status r = false ->
      can_open_wb w (h ++ [EvGet url true])
        (os_path_join folder (last_segment url)) = false ->
      download_file url folder w h
      = (Raise OSError,
         h ++ [EvGet url true;
               EvOpen (os_path_join folder (last_segment url))])).
Proof.
  rewrite download_file_eq. cbv zeta.
  split; [| split].
  - intros Hget. rewrite Hget. reflexivity.
  - intros r Hget Hst. rewrite Hget, Hst. reflexivity.
  - intros r Hget Hst Hopen. rewrite Hget, Hst, Hopen. reflexivity.
Qed.

(** The network is down; the server answers 404; the folder is read-only. *)
Lemma download_file_failures_witness :
  download_file good_url "/tmp" world_unreachable []
  = (Raise ConnectionError, [EvGet good_url true])
  /\ download_file good_url "/tmp" world_download_refused []
     = (Raise HTTPError, [EvGet good_url true])
  /\ download_file good_url "/tmp" world_read_only []
     = (Raise OSError,
        [EvGet good_url true;
         EvOpen "/tmp/thorium-browser_117.0.5938.157_amd64.deb"]).
Proof.
  split; [| split].
  - exact (proj1 (download_file_failures good_url "/tmp" world_unreachable [])
             eq_refl).
  - exact (proj1 (proj2 (download_file_failures good_url "/tmp"
                           world_download_refused []))
             {| status_code := 404; json := {| assets := None |};
                iter_content := [] |} eq_refl eq_refl).
  - exact (proj2 (proj2 (download_file_failures good_url "/tmp"
                           world_read_only []))
             {| status_code := 200; json := {| assets := Some [deb_asset] |};
                iter_content := ["chunk-1"; "chunk-2"] |}
             eq_refl eq_refl eq_refl).
Defined.

(** X8.  The name taken from the URL never replaces the folder: the final
    segment of a URL holds no slash, so [posixpath.join] never takes its
    absolute-path branch, and the path of the download is the folder, a
    slash unless the folder is empty or ends with one, and that segment. *)
Theorem download_path_is_folder_then_segment (url folder : string) :
  contains (last_segment url) "/" = false
  /\ os_path_join folder (last_segment url)
     = (folder ++ separator folder ++ last_segment url)%string.
Proof.
  pose proof (last_segment_without_slash url) as Hseg.
  split; [exact Hseg |].
  unfold os_path_join, separator.
  assert (Hstart : startswith (last_segment url) "/" = false).
  { destruct (last_segment url) as [| c seg]; [reflexivity |].
    simpl in Hseg. apply orb_false_iff in Hseg. destruct Hseg as [Hc _].
    simpl. rewrite Hc. reflexivity. }
  rewrite Hstart.
  destruct ((folder =? EmptyString) || endswith folder "/"); reflexivity.
Qed.

(** ** The release resolver, further *)

Lemma scan_assets_some (l : list asset) (url : string) :
  scan_assets l = Some url ->
  exists pre a post,
    l = pre ++ a :: post
    /\ Forall (fun b => is_deb b = false) pre
    /\ is_deb a = true
    /\ url = browser_download_url a.
Proof.
  induction l as [| b l IH]; simpl; [discriminate |].
  destruct (endswith (name b) ".deb") eqn:Hb.
  - intros Hurl. inversion Hurl. exists [], b, l.
    repeat split; [constructor | exact Hb].
  - intros Hurl. destruct (IH Hurl) as [pre [a [post [-> [Hpre [Ha ->]]]]]].
    exists (b :: pre), a, post.
    repeat split; [constructor; assumption | exact Ha].
Qed.

Lemma scan_assets_none_inv (l : list asset) :
  scan_assets l = None -> Forall (fun b => is_deb b = false) l.
Proof.
  induction l as [| b l IH]; simpl; [constructor |].
  destruct (endswith (name b) ".deb") eqn:Hb; [discriminate |].
  intros Hnone. constructor; [exact Hb | exact (IH Hnone)].
Qed.

(** X9.  When the endpoint answers with a body of the schema, a URL that
    the resolver returns is the download URL of a listed asset whose name
    ends in [.deb], no asset listed before it has such a name, and the
    status was 200; the resolver returns [None] exactly when the status is
    not 200 or no listed name ends in [.deb] (in particular when the body
    has no [assets] key). *)
Theorem resolver_result_sound (owner repo : string) (w : world) (h : history)
    (r : response) :
  http w h (api_url owner repo) = Response r ->
  (forall url,
      fst (get_latest_deb_release owner repo w h) = Ok (Some url) ->
      status_code r = 200%Z
      /\ exists pre a post,
          listed_assets r = pre ++ a :: post
          /\ Forall (fun b => is_deb b = false) pre
          /\ is_deb a = true
          /\ url = browser_download_url a)
  /\ (fst (get_latest_deb_release owner repo w h) = Ok None
      <-> (status_code r <> 200%Z
           \/ Forall (fun b => is_deb b = false) (listed_assets r))).
Proof.
  intros Hget.
  destruct (Z.eq_dec (status_code r) 200) as [Hst | Hst].
  - rewrite (get_latest_deb_release_ok owner repo w h r Hget Hst). simpl.
    split.
    + intros url Hurl. split; [exact Hst |].
      apply scan_assets_some. congruence.
    + split.
      * intros Hnone. right. apply scan_assets_none_inv. congruence.
      * intros [Hno | Hall]; [contradiction |].
        rewrite (scan_assets_none _ Hall). reflexivity.
  - rewrite (get_latest_deb_release_failed owner repo w h r Hget Hst). simpl.
    split.
    + intros url Hurl. discriminate Hurl.
    + split; [intros _; left; exact Hst | reflexivity].
Qed.

(** A release with two packages after an archive, and an answer without
    the [assets] key. *)
Lemma resolver_result_sound_witness :
  (200%Z = 200%Z
   /\ exists pre a post,
       [zip_asset; deb_asset; sse3_deb_asset] = pre ++ a :: post
       /\ Forall (fun b => is_deb b = false) pre
       /\ is_deb a = true
       /\ good_url = browser_download_url a)
  /\ fst (get_latest_deb_release "Alex313031" "Thorium"
            (world_of_response
               {| status_code := 200; json := {| assets := None |};
                  iter_content := [] |}) [])
     = Ok None.
Proof.
  split.
  - exact (proj1 (resolver_result_sound "Alex313031" "Thorium"
                    (world_of_response
                       (response_of 200
                          [zip_asset; deb_asset; sse3_deb_asset]))
                    []
                    (response_of 200 [zip_asset; deb_asset; sse3_deb_asset])
                    eq_refl)
             good_url eq_refl).
  - apply (proj2 (proj2 (resolver_result_sound "Alex313031" "Thorium"
                           (world_of_response
                              {| status_code := 200;
                                 json := {| assets := None |};
                                 iter_content := [] |})
                           []
                           {| status_code := 200;
                              json := {| assets := None |};
                              iter_content := [] |}
                           eq_refl))).
    right. constructor.
Defined.

(** ** The extraction of the latest version, further *)

(** X10.  On a URL of the usual form, [.../<package>_<version>_<rest>]
    with a package name and a version that hold neither a slash nor an
    underscore and a rest without slash, the expression of line 144 yields
    the version, whatever precedes the last slash. *)
Theorem version_of_conventional_url (base package version rest : string) :
  contains package "/" = false -> contains package "_" = false ->
  contains version "/" = false -> contains version "_" = false ->
  contains rest "/" = false ->
  last_segment (base ++ "/" ++ package ++ "_" ++ version ++ "_" ++ rest)
  = (package ++ "_" ++ version ++ "_" ++ rest)%string
  /\ getitem
       (split
          (last_segment
             (base ++ "/" ++ package ++ "_" ++ version ++ "_" ++ rest))
          "_") 1
     = Ok version.
Proof.
  intros Hp1 Hp2 Hv1 Hv2 Hr.
  assert (Hseg :
    last_segment (base ++ "/" ++ package ++ "_" ++ version ++ "_" ++ rest)
    = (package ++ "_" ++ version ++ "_" ++ rest)%string).
  { change (base ++ "/" ++ package ++ "_" ++ version ++ "_" ++ rest)%string
      with (base ++ String "/"
                      (package ++ "_" ++ version ++ "_" ++ rest))%string.
    rewrite last_segment_app. apply last_segment_plain.
    rewrite contains_app, Hp1. simpl.
    rewrite contains_app, Hv1. simpl. exact Hr. }
  split; [exact Hseg |].
  rewrite Hseg.
  change (package ++ "_" ++ version ++ "_" ++ rest)%string
    with (package ++ String "_" (version ++ String "_" rest))%string.
  rewrite !split_app, (split_without_sep _ _ Hp2), (split_without_sep _ _ Hv2).
  simpl. apply getitem_second.
Qed.

(** The URL of a release of the browser. *)
Lemma version_of_conventional_url_witness :
  last_segment good_url = "thorium-browser_117.0.5938.157_amd64.deb"
  /\ getitem (split (last_segment good_url) "_") 1 = Ok "117.0.5938.157".
Proof.
  exact (version_of_conventional_url
           "https://github.com/Alex313031/Thorium/releases/download/M117"
           "thorium-browser" "117.0.5938.157" "amd64.deb"
           eq_refl eq_refl eq_refl eq_refl eq_refl).
Defined.

(** ** The dispatcher, further *)

Lemma main_fetch_start (c : command) w :
  fetches c = true ->
  main c w []
  = (installed_version <- get_installed_version ;;
     if is_update c && is_None installed_version then
       print "Thorium is not installed. Use 'install' command to install it."
     else
       latest_deb_url <- get_latest_deb_release "Alex313031" "Thorium" ;;
       match latest_deb_url with
       | None => print "No .deb release found"
       | Some url =>
           if (url =? EmptyString) then print "No .deb release found"
           else after_resolution c installed_version url
       end) w [].
Proof. intros Hc. destruct c; [reflexivity | discriminate Hc | reflexivity]. Qed.

Lemma main_probe_raises (c : command) w e h1 :
  fetches c = true ->
  get_installed_version w [] = (Raise e, h1) ->
  main c w [] = (Raise e, h1).
Proof.
  intros Hc Hprobe. rewrite (main_fetch_start c w Hc).
  exact (bind_raise _ _ _ _ _ _ Hprobe).
Qed.

Lemma main_guard_stops (c : command) w installed h1 :
  fetches c = true ->
  get_installed_version w [] = (Ok installed, h1) ->
  passes_update_guard c installed = false ->
  main c w []
  = (Ok tt,
     h1 ++ [EvPrint "Thorium is not installed. Use 'install' command to install it."]).
Proof.
  intros Hc Hprobe Hguard. rewrite (main_fetch_start c w Hc).
  rewrite (bind_ok _ _ _ _ _ _ Hprobe).
  unfold passes_update_guard in Hguard. apply negb_false_iff in Hguard.
  rewrite Hguard. reflexivity.
Qed.

Lemma main_resolver_raises (c : command) w installed h1 e h2 :
  fetches c = true ->
  get_installed_version w [] = (Ok installed, h1) ->
  passes_update_guard c installed = true ->
  get_latest_deb_release "Alex313031" "Thorium" w h1 = (Raise e, h2) ->
  main c w [] = (Raise e, h2).
Proof.
  intros Hc Hprobe Hguard Hres. rewrite (main_fetch_start c w Hc).
  rewrite (bind_ok _ _ _ _ _ _ Hprobe).
  unfold passes_update_guard in Hguard. apply negb_true_iff in Hguard.
  rewrite Hguard. exact (bind_raise _ _ _ _ _ _ Hres).
Qed.

Lemma main_empty_url (c : command) w installed h1 h2 :
  fetches c = true ->
  get_installed_version w [] = (Ok installed, h1) ->
  passes_update_guard c installed = true ->
  get_latest_deb_release "Alex313031" "Thorium" w h1
  = (Ok (Some EmptyString), h2) ->
  main c w [] = (Ok tt, h2 ++ [EvPrint "No .deb release found"]).
Proof.
  intros Hc Hprobe Hguard Hres. rewrite (main_fetch_start c w Hc).
  rewrite (bind_ok _ _ _ _ _ _ Hprobe).
  unfold passes_update_guard in Hguard. apply negb_true_iff in Hguard.
  rewrite Hguard, (bind_ok _ _ _ _ _ _ Hres). reflexivity.
Qed.

(** X11.  For [install] and [update], a probe output that starts with the
    product name and has fewer than two fields ends the whole run: [main]
    raises [IndexError] right after the probe, before any request. *)
Theorem short_banner_ends_the_run (c : command) (w : world) (out : string) :
  fetches c = true ->
  subprocess w [] probe_argv = Exited 0 out ->
  startswith (strip out) "Thorium" = true ->
  (List.length (split_ws (strip out)) < 2)%nat ->
  main c w [] = (Raise IndexError, [EvRun probe_argv]).
Proof.
  intros Hc Hrun Hstart Hshort. apply (main_probe_raises c w _ _ Hc).
  unfold get_installed_version, try_except, bind, subprocess_run, lift.
  rewrite Hrun. cbn [Z.eqb]. rewrite Hstart.
  change 1%Z with (Z.of_nat 1). rewrite getitem_too_short by lia.
  reflexivity.
Qed.

(** The probe prints the bare product name. *)
Lemma short_banner_ends_the_run_witness :
  main Install world_one_field [] = (Raise IndexError, [EvRun probe_argv]).
Proof.
  apply (short_banner_ends_the_run Install world_one_field "Thorium");
    [reflexivity | reflexivity | reflexivity | simpl; lia].
Defined.

(** X12.  A request to the endpoint that cannot be made is not reported:
    the resolver raises [ConnectionError] without printing, and for
    [install] and [update] past the guard [main] ends with that exception,
    the request being its last event. *)
Theorem unreachable_endpoint_ends_the_run (c : command) (w : world)
    (installed : option string) (h1 : history) :
  fetches c = true ->
  get_installed_version w [] = (Ok installed, h1) ->
  passes_update_guard c installed = true ->
  http w h1 thorium_api = Unreachable ->
  get_latest_deb_release "Alex313031" "Thorium" w h1
  = (Raise ConnectionError, h1 ++ [EvGet thorium_api false])
  /\ main c w [] = (Raise ConnectionError, h1 ++ [EvGet thorium_api false]).
Proof.
  intros Hc Hprobe Hguard Hget.
  assert (Hres : get_latest_deb_release "Alex313031" "Thorium" w h1
                 = (Raise ConnectionError, h1 ++ [EvGet thorium_api false])).
  { unfold get_latest_deb_release, bind, requests_get.
    fold thorium_api. rewrite Hget. reflexivity. }
  split; [exact Hres |].
  exact (main_resolver_raises c w installed h1 _ _ Hc Hprobe Hguard Hres).
Qed.

(** An update while the network is down. *)
Lemma unreachable_endpoint_ends_the_run_witness :
  main Update world_unreachable []
  = (Raise ConnectionError, [EvRun probe_argv; EvGet thorium_api false]).
Proof.
  exact (proj2 (unreachable_endpoint_ends_the_run Update world_unreachable
                  (Some "117.0.5938.157") [EvRun probe_argv]
                  eq_refl eq_refl eq_refl eq_refl)).
Defined.

(** X13.  [if not latest_deb_url] also holds for the empty string: when the
    first listed asset whose name ends in [.deb] has an empty download URL,
    [main] reports that no release was found, although one is listed. *)
Theorem empty_url_counts_as_no_release (c : command) (w : world)
    (installed : option string) (h1 : history) (r : response)
    (pre post : list asset) (a : asset) :
  fetches c = true ->
  get_installed_version w [] = (Ok installed, h1) ->
  passes_update_guard c installed = true ->
  http w h1 thorium_api = Response r ->
  status_code r = 200%Z ->
  listed_assets r = pre ++ a :: post ->
  Forall (fun b => is_deb b = false) pre ->
  is_deb a = true ->
  browser_download_url a = EmptyString ->
  main c w []
  = (Ok tt, h1 ++ [EvGet thorium_api false; EvPrint "No .deb release found"]).
Proof.
  intros Hc Hprobe Hguard Hget Hst Hl Hpre Ha Hurl.
  pose proof (get_latest_deb_release_ok "Alex313031" "Thorium" w h1 r Hget Hst)
    as Hres.
  rewrite Hl, (scan_assets_first pre post a Hpre Ha), Hurl in Hres.
  rewrite (main_empty_url c w installed h1 _ Hc Hprobe Hguard Hres).
  rewrite <- app_assoc. reflexivity.
Qed.

(** A release whose package has an empty download URL. *)
Lemma empty_url_counts_as_no_release_witness :
  main Install world_empty_url []
  = (Ok tt,
     [EvRun probe_argv; EvPrint "Thorium browser is not installed."]
       ++ [EvGet thorium_api false; EvPrint "No .deb release found"]).
Proof.
  apply (empty_url_counts_as_no_release Install world_empty_url None
           [EvRun probe_argv; EvPrint "Thorium browser is not installed."]
           {| status_code := 200;
              json := {| assets :=
                           Some [ {| name := "thorium.deb";
                                     browser_download_url := EmptyString |} ] |};
              iter_content := ["chunk-1"; "chunk-2"] |}
           [] []
           {| name := "thorium.deb"; browser_download_url := EmptyString |});
    try reflexivity.
  constructor.
Defined.

(** X14.  [update] compares the two version strings for equality only:
    whenever the installed version differs from the token of the URL,
    whichever is the newer, [main] prints the line about the update and
    the URL, and goes on to download and install. *)
Theorem update_on_any_difference (w : world) (installed : string)
    (h1 : history) (url : string) (h2 : history) (v : string) :
  get_installed_version w [] = (Ok (Some installed), h1) ->
  get_latest_deb_release "Alex313031" "Thorium" w h1 = (Ok (Some url), h2) ->
  getitem (split (last_segment url) "_") 1 = Ok v ->
  installed <> v ->
  main Update w []
  = download_and_install url "/home/kai/projects/renew-thorium" w
      (h2 ++ [EvPrint ("Updating Thorium from version " ++ installed
                       ++ " to " ++ v ++ "...");
              EvPrint ("Latest .deb release URL: " ++ url)])
  /\ In (EvGet url true) (snd (main Update w [])).
Proof.
  intros Hprobe Hres Hv Hneq.
  assert (Hmain : main Update w []
    = download_and_install url "/home/kai/projects/renew-thorium" w
        (h2 ++ [EvPrint ("Updating Thorium from version " ++ installed
                         ++ " to " ++ v ++ "...");
                EvPrint ("Latest .deb release URL: " ++ url)])).
  { apply (main_proceeds Update w (Some installed) h1 url h2 v eq_refl Hprobe
             eq_refl Hres Hv).
    simpl. apply String.eqb_neq. exact Hneq. }
  split; [exact Hmain |].
  rewrite Hmain. unfold download_and_install. apply bind_keeps.
  - intros path. apply emits_bind.
    + apply emits_install_deb; reflexivity.
    + intros _. apply emits_print. reflexivity.
  - destruct (download_file_requests url "/home/kai/projects/renew-thorium" w
                (h2 ++ [EvPrint ("Updating Thorium from version " ++ installed
                                 ++ " to " ++ v ++ "...");
                        EvPrint ("Latest .deb release URL: " ++ url)]))
      as [rest Htr].
    rewrite Htr. apply in_or_app. right. left. reflexivity.
Qed.

(** An older version is installed. *)
Lemma update_on_any_difference_witness :
  main Update world_outdated []
  = download_and_install good_url "/home/kai/projects/renew-thorium"
      world_outdated
      [EvRun probe_argv; EvGet thorium_api false;
       EvPrint "Updating Thorium from version 116.0.5845.169 to 117.0.5938.157...";
       EvPrint ("Latest .deb release URL: " ++ good_url)]
  /\ In (EvGet good_url true) (snd (main Update world_outdated [])).
Proof.
  apply (update_on_any_difference world_outdated "116.0.5845.169"
           [EvRun probe_argv] good_url
           [EvRun probe_argv; EvGet thorium_api false] "117.0.5938.157");
    try reflexivity.
  discriminate.
Defined.

(** ** The shape of a run *)

Lemma count_app (P : event -> bool) (a b : history) :
  count P (a ++ b) = (count P a + count P b)%nat.
Proof. unfold count. rewrite filter_app, length_app. reflexivity. Qed.

Lemma count_none (P Q : event -> bool) (tr : history) :
  (forall e, Q e = true -> P e = false) ->
  forallb Q tr = true -> count P tr = 0%nat.
Proof.
  intros HQP Hall. unfold count.
  induction tr as [| e tr IH]; [reflexivity |].
  simpl in Hall. apply andb_true_iff in Hall. destruct Hall as [He Htr].
  simpl. rewrite (HQP e He). exact (IH Htr).
Qed.

Lemma forallb_weaken (P Q : event -> bool) (tr : history) :
  (forall e, P e = true -> Q e = true) ->
  forallb P tr = true -> forallb Q tr = true.
Proof.
  intros HPQ Hall. rewrite forallb_forall in *.
  intros e He. exact (HPQ e (Hall e He)).
Qed.

Lemma emits_remove_package (P : event -> bool) (package_name : string) :
  (forall line, P (EvPrint line) = true) ->
  (forall args, P (EvRun ("sudo" :: args)) = true) ->
  emits P (remove_package package_name).
Proof.
  intros Hprint Hsudo. unfold remove_package. apply emits_try_except.
  - apply emits_bind; [apply emits_subprocess_run, Hsudo |].
    intros _. apply emits_ret.
  - intros e k Hk. destruct e; inversion Hk; subst k.
    apply emits_bind; [apply emits_print, Hprint | intros _].
    apply emits_bind; [apply emits_subprocess_run, Hsudo | intros _].
    apply emits_ret.
Qed.

(** A run of [install] or [update] either stops before the download,
    without any event of the downloader or of the installer, or goes on to
    the download with a URL from which a version was extracted. *)
Lemma main_trace_cases (c : command) (w : world) :
  fetches c = true ->
  forallb no_download_no_install (snd (main c w [])) = true
  \/ exists url v h3,
      getitem (split (last_segment url) "_") 1 = Ok v
      /\ forallb no_download_no_install h3 = true
      /\ main c w []
         = download_and_install url "/home/kai/projects/renew-thorium" w h3.
Proof.
  intros Hc.
  destruct (get_installed_version w []) as [[installed | e] h1] eqn:Hprobe.
  2:{ left. rewrite (main_probe_raises c w e h1 Hc Hprobe). simpl.
      destruct (emitted no_download_no_install _ _ _ _ _
                  (emits_get_installed_version _ (fun _ => eq_refl) eq_refl)
                  Hprobe) as [evs [-> Hall]].
      exact Hall. }
  assert (Hh1 : forallb no_download_no_install h1 = true).
  { destruct (emitted no_download_no_install _ _ _ _ _
                (emits_get_installed_version _ (fun _ => eq_refl) eq_refl)
                Hprobe) as [evs [-> Hall]].
    exact Hall. }
  destruct (passes_update_guard c installed) eqn:Hguard.
  2:{ left. rewrite (main_guard_stops c w installed h1 Hc Hprobe Hguard).
      simpl. rewrite forallb_app, Hh1. reflexivity. }
  destruct (get_latest_deb_release "Alex313031" "Thorium" w h1)
    as [[[url |] | e] h2] eqn:Hres.
  - pose proof (probe_then_resolve_quiet w installed h1 _ h2 Hprobe Hres)
      as Hh2.
    destruct (String.eqb_spec url EmptyString) as [-> | Hurl].
    + left. rewrite (main_empty_url c w installed h1 h2 Hc Hprobe Hguard Hres).
      simpl. rewrite forallb_app, Hh2. reflexivity.
    + rewrite (main_resolved c w installed h1 url h2 Hc Hprobe Hguard Hres Hurl).
      destruct (getitem (split (last_segment url) "_") 1) as [v | e] eqn:Hv.
      * destruct (version_eq installed v) eqn:Heq.
        -- left. rewrite after_resolution_eq, Hv, Heq. simpl.
           rewrite forallb_app, Hh2. reflexivity.
        -- right. exists url, v, (h2 ++ announce c installed v url).
           split; [exact Hv |]. split.
           ++ rewrite forallb_app, Hh2. unfold announce.
              destruct (is_update c); reflexivity.
           ++ exact (after_resolution_proceeds c installed url v w h2 Hv Heq).
      * left. rewrite after_resolution_eq, Hv. exact Hh2.
  - left. pose proof (probe_then_resolve_quiet w installed h1 _ h2 Hprobe Hres)
      as Hh2.
    rewrite (main_unresolved c w installed h1 h2 Hc Hprobe Hguard Hres).
    simpl. rewrite forallb_app, Hh2. reflexivity.
  - left. pose proof (probe_then_resolve_quiet w installed h1 _ h2 Hprobe Hres)
      as Hh2.
    rewrite (main_resolver_raises c w installed h1 e h2 Hc Hprobe Hguard Hres).
    exact Hh2.
Qed.

Lemma writes_are_not_commands (path : string) (chunks : list string) :
  forallb (fun e => negb (package_event e)) (map (EvWrite path) chunks) = true.
Proof. induction chunks as [| ch chunks IH]; [reflexivity | exact IH]. Qed.

(** The download and the installation: the request, then nothing, or the
    file opened, or the file opened and written; the commands of the
    installer and the final print come after a file that was written. *)
Lemma download_and_install_shape (url : string) (w : world) (h : history) :
  exists mid evs,
    snd (download_and_install url "/home/kai/projects/renew-thorium" w h)
    = (h ++ EvGet url true :: mid) ++ evs
    /\ forallb (fun e => negb (downloader_event e)) evs = true
    /\ forallb (fun e => negb (package_event e)) mid = true
    /\ ((mid = [] /\ evs = [])
        \/ (mid = [EvOpen (download_path url)] /\ evs = [])
        \/ exists chunks,
            mid = EvOpen (download_path url)
                    :: map (EvWrite (download_path url)) chunks).
Proof.
  unfold download_and_install, bind at 1. rewrite download_file_eq.
  fold destination_folder. rewrite join_download_path. cbv zeta.
  destruct (http w h url) as [| r].
  - exists [], []. rewrite app_nil_r. repeat split. left. split; reflexivity.
  - destruct (error_status r).
    + exists [], []. rewrite app_nil_r. repeat split. left. split; reflexivity.
    + destruct (can_open_wb w (h ++ [EvGet url true]) (download_path url)).
      * match goal with
        | |- context [snd ((install_deb ?p ;;; ?k) w ?h4)] =>
            destruct (emits_bind (fun e => negb (downloader_event e))
                        (install_deb p) (fun _ => k)
                        (emits_install_deb _ (fun _ => eq_refl) p
                           (fun _ => eq_refl))
                        (fun _ => emits_print _ (fun _ => eq_refl) _)
                        w h4) as [evs [Htr Hall]]
        end.
        exists (EvOpen (download_path url)
                  :: map (EvWrite (download_path url)) (iter_content r)), evs.
        cbn beta iota. rewrite Htr. split; [reflexivity |].
        split; [exact Hall |]. split; [| right; right; eexists; reflexivity].
        simpl. apply writes_are_not_commands.
      * exists [EvOpen (download_path url)], []. rewrite app_nil_r.
        repeat split. right. left. split; reflexivity.
Qed.

Lemma sudo_not_in_quiet (tr pre post : history) (args : list string) :
  forallb (fun e => negb (package_event e)) tr = true ->
  tr <> pre ++ EvRun ("sudo" :: args) :: post.
Proof.
  intros Hall Heq. rewrite Heq, forallb_app in Hall.
  apply andb_true_iff in Hall. destruct Hall as [_ Hall].
  simpl in Hall. discriminate Hall.
Qed.

Lemma sudo_after_quiet_prefix (a b pre post : history) (args : list string) :
  forallb (fun e => negb (package_event e)) a = true ->
  a ++ b = pre ++ EvRun ("sudo" :: args) :: post ->
  exists b1, pre = a ++ b1.
Proof.
  revert pre. induction a as [| e a IH]; intros pre Hall Heq.
  - exists pre. reflexivity.
  - simpl in Hall. apply andb_true_iff in Hall. destruct Hall as [He Ha].
    destruct pre as [| e' pre].
    + simpl in Heq. inversion Heq; subst e. simpl in He. discriminate He.
    + simpl in Heq. inversion Heq; subst e'.
      destruct (IH pre Ha H1) as [b1 ->]. exists b1. reflexivity.
Qed.

Lemma not_downloader_not_open (tr : history) (path : string) :
  forallb (fun e => negb (downloader_event e)) tr = true ->
  ~ In (EvOpen path) tr.
Proof.
  intros Hall Hin. rewrite forallb_forall in Hall.
  specialize (Hall _ Hin). discriminate Hall.
Qed.

Lemma open_not_among_writes (path file : string) (chunks : list string) :
  ~ In (EvOpen path) (map (EvWrite file) chunks).
Proof.
  induction chunks as [| ch chunks IH]; [intros [] |].
  intros [Hin | Hin]; [discriminate Hin | exact (IH Hin)].
Qed.

Lemma quiet_not_downloader (e : event) :
  no_download_no_install e = true -> negb (downloader_event e) = true.
Proof.
  unfold no_download_no_install. destruct (downloader_event e); [| reflexivity].
  intros H. discriminate H.
Qed.

Lemma quiet_not_package (e : event) :
  no_download_no_install e = true -> negb (package_event e) = true.
Proof.
  unfold no_download_no_install.
  destruct (downloader_event e); [intros H; discriminate H |].
  destruct (package_event e); [intros H; discriminate H | reflexivity].
Qed.

(** X15.  Whatever the command and the world, a run opens at most one file
    and makes at most one streamed request. *)
Theorem at_most_one_download (c : command) (w : world) :
  (count is_open (snd (main c w [])) <= 1)%nat
  /\ (count is_streamed_get (snd (main c w [])) <= 1)%nat.
Proof.
  assert (Hquiet : forall tr,
             forallb (fun e => negb (downloader_event e)) tr = true ->
             count is_open tr = 0%nat /\ count is_streamed_get tr = 0%nat).
  { intros tr Hall. split.
    - apply (count_none _ _ tr) with (2 := Hall).
      intros [| | u [|] | |]; simpl; congruence.
    - apply (count_none _ _ tr) with (2 := Hall).
      intros [| | u [|] | |]; simpl; congruence. }
  destruct (fetches c) eqn:Hc.
  - destruct (main_trace_cases c w Hc) as [Hall | [url [v [h3 [_ [Hh3 Hmain]]]]]].
    + destruct (Hquiet _ (forallb_weaken _ _ _ quiet_not_downloader Hall))
        as [-> ->].
      split; lia.
    + rewrite Hmain.
      destruct (download_and_install_shape url w h3)
        as [mid [evs [-> [Hevs [_ Hmid]]]]].
      destruct (Hquiet _ (forallb_weaken _ _ _ quiet_not_downloader Hh3))
        as [Ho3 Hg3].
      destruct (Hquiet _ Hevs) as [Hoe Hge].
      rewrite !count_app, Ho3, Hg3, Hoe, Hge.
      assert (Hwrites : forall chunks,
                 count is_open (map (EvWrite (download_path url)) chunks) = 0%nat
                 /\ count is_streamed_get
                      (map (EvWrite (download_path url)) chunks) = 0%nat).
      { intros chunks. induction chunks as [| ch chunks IH];
          [split; reflexivity | exact IH]. }
      destruct Hmid as [[-> _] | [[-> _] | [chunks ->]]].
      * split; simpl; lia.
      * split; simpl; lia.
      * destruct (Hwrites chunks) as [Hwo Hwg].
        change (EvGet url true
                  :: EvOpen (download_path url)
                  :: map (EvWrite (download_path url)) chunks)
          with ([EvGet url true; EvOpen (download_path url)]
                  ++ map (EvWrite (download_path url)) chunks).
        rewrite !count_app, Hwo, Hwg. split; simpl; lia.
  - destruct c; try discriminate Hc.
    change (main Remove w []) with (remove_package "thorium-browser" w []).
    destruct (emits_remove_package (fun e => negb (downloader_event e))
                "thorium-browser" (fun _ => eq_refl) (fun _ => eq_refl) w [])
      as [evs [-> Hall]].
    simpl. destruct (Hquiet _ Hall) as [-> ->]. split; lia.
Qed.

(** X16.  [install] and [update] run no elevated command before a file was
    opened for the download: whatever the world, every elevated command of
    the run comes after the opening of a file. *)
Theorem installs_only_after_download (c : command) (w : world) :
  fetches c = true -> installs_after_download (snd (main c w [])).
Proof.
  intros Hc pre args post Heq.
  destruct (main_trace_cases c w Hc) as [Hall | [url [v [h3 [_ [Hh3 Hmain]]]]]].
  - exfalso.
    exact (sudo_not_in_quiet _ pre post args
             (forallb_weaken _ _ _ quiet_not_package Hall) Heq).
  - rewrite Hmain in Heq.
    destruct (download_and_install_shape url w h3)
      as [mid [evs [Htr [_ [Hmidq Hmid]]]]].
    rewrite Htr in Heq.
    assert (Hprefix : forallb (fun e => negb (package_event e))
                        (h3 ++ EvGet url true :: mid) = true).
    { rewrite forallb_app, (forallb_weaken _ _ _ quiet_not_package Hh3).
      simpl. exact Hmidq. }
    destruct Hmid as [[_ ->] | [[_ ->] | [chunks Hmid]]].
    + exfalso. rewrite app_nil_r in Heq.
      exact (sudo_not_in_quiet _ pre post args Hprefix Heq).
    + exfalso. rewrite app_nil_r in Heq.
      exact (sudo_not_in_quiet _ pre post args Hprefix Heq).
    + destruct (sudo_after_quiet_prefix _ _ pre post args Hprefix Heq)
        as [b1 ->].
      exists (download_path url). rewrite Hmid.
      apply in_or_app. left. apply in_or_app. right. right. left. reflexivity.
Qed.

(** In a first installation the installer runs after the package was
    written. *)
Lemma installs_only_after_download_witness :
  exists path,
    In (EvOpen path)
      [EvRun probe_argv; EvPrint "Thorium browser is not installed.";
       EvGet thorium_api false;
       EvPrint ("Latest .deb release URL: " ++ good_url);
       EvGet good_url true; EvOpen (download_path good_url);
       EvWrite (download_path good_url) "chunk-1";
       EvWrite (download_path good_url) "chunk-2"].
Proof.
  exact (installs_only_after_download Install world_fresh_install eq_refl
           [EvRun probe_argv; EvPrint "Thorium browser is not installed.";
            EvGet thorium_api false;
            EvPrint ("Latest .deb release URL: " ++ good_url);
            EvGet good_url true; EvOpen (download_path good_url);
            EvWrite (download_path good_url) "chunk-1";
            EvWrite (download_path good_url) "chunk-2"]
           [ "nala"; "install"; download_path good_url ]
           [EvPrint ("Installed " ++ download_path good_url)] eq_refl).
Defined.

(** X17.  Whatever the command and the world, a file that a run opens is in
    the fixed folder and is named by the final segment of the URL of the
    streamed request of that run, and this name holds an underscore: no
    file with an empty name is ever opened. *)
Theorem opened_files_are_named_packages (c : command) (w : world)
    (path : string) :
  In (EvOpen path) (snd (main c w [])) ->
  exists url,
    path = ("/home/kai/projects/renew-thorium/" ++ last_segment url)%string
    /\ contains (last_segment url) "_" = true
    /\ In (EvGet url true) (snd (main c w [])).
Proof.
  intros Hin. destruct (fetches c) eqn:Hc.
  - destruct (main_trace_cases c w Hc) as [Hall | [url [v [h3 [Hv [Hh3 Hmain]]]]]].
    + exfalso.
      exact (not_downloader_not_open _ path
               (forallb_weaken _ _ _ quiet_not_downloader Hall) Hin).
    + exists url. rewrite Hmain in *.
      destruct (download_and_install_shape url w h3)
        as [mid [evs [Htr [Hevs [_ Hmid]]]]].
      rewrite Htr in *. split; [| split].
      * apply in_app_or in Hin. destruct Hin as [Hin | Hin];
          [| exfalso; exact (not_downloader_not_open _ path Hevs Hin)].
        apply in_app_or in Hin. destruct Hin as [Hin | Hin];
          [exfalso;
           exact (not_downloader_not_open _ path
                    (forallb_weaken _ _ _ quiet_not_downloader Hh3) Hin) |].
        destruct Hin as [Hin | Hin]; [discriminate Hin |].
        destruct Hmid as [[-> _] | [[-> _] | [chunks ->]]].
        -- destruct Hin.
        -- destruct Hin as [Hin | []]. inversion Hin. reflexivity.
        -- destruct Hin as [Hin | Hin]; [inversion Hin; reflexivity |].
           exfalso. exact (open_not_among_writes _ _ _ Hin).
      * destruct (contains (last_segment url) "_") eqn:Hcont; [reflexivity |].
        rewrite (split_without_sep _ _ Hcont) in Hv. discriminate Hv.
      * apply in_or_app. left. apply in_or_app. right. left. reflexivity.
  - exfalso. destruct c; try discriminate Hc.
    change (main Remove w []) with (remove_package "thorium-browser" w [])
      in Hin.
    destruct (emits_remove_package (fun e => negb (downloader_event e))
                "thorium-browser" (fun _ => eq_refl) (fun _ => eq_refl) w [])
      as [evs [Htr Hall]].
    rewrite Htr in Hin.
    exact (not_downloader_not_open _ path Hall Hin).
Qed.

(** The file of a first installation. *)
Lemma opened_files_are_named_packages_witness :
  exists url,
    "/home/kai/projects/renew-thorium/thorium-browser_117.0.5938.157_amd64.deb"
    = ("/home/kai/projects/renew-thorium/" ++ last_segment url)%string
    /\ contains (last_segment url) "_" = true
    /\ In (EvGet url true) (snd (main Install world_fresh_install [])).
Proof.
  apply (opened_files_are_named_packages Install world_fresh_install).
  right. right. right. right. right. left. reflexivity.
Defined.

(** X18.  [remove] only runs elevated commands and prints: whatever the
    world, a run of [remove] makes no request, touches no file, and runs
    at most two commands. *)
Theorem remove_only_runs_package_commands (w : world) :
  forallb (fun e => package_event e || is_print e) (snd (main Remove w []))
  = true
  /\ (count package_event (snd (main Remove w [])) <= 2)%nat.
Proof.
  change (main Remove w []) with (remove_package "thorium-browser" w []).
  destruct (remove_package_trace "thorium-browser" w []) as [rest [-> Hrest]].
  destruct Hrest as [-> | ->]; split; simpl; try reflexivity; unfold count;
    simpl; lia.
Qed.

(** X19.  Once the download is reached, nothing is caught any more: an
    exception of the downloader ends the run before the installer is
    called, an exception of the installer ends it before the last print,
    and the line [Installed <path>] is printed when both have returned. *)
Theorem failures_after_resolution_are_fatal (c : command) (w : world)
    (installed : option string) (h1 : history) (url : string) (h2 : history)
    (v : string) :
  fetches c = true ->
  get_installed_version w [] = (Ok installed, h1) ->
  passes_update_guard c installed = true ->
  get_latest_deb_release "Alex313031" "Thorium" w h1 = (Ok (Some url), h2) ->
  getitem (split (last_segment url) "_") 1 = Ok v ->
  version_eq installed v = false ->
  (forall e h4,
      download_file url "/home/kai/projects/renew-thorium" w
        (h2 ++ announce c installed v url) = (Raise e, h4) ->
      main c w [] = (Raise e, h4))
  /\ (forall path h4 e h5,
      download_file url "/home/kai/projects/renew-thorium" w
        (h2 ++ announce c installed v url) = (Ok path, h4) ->
      install_deb path w h4 = (Raise e, h5) ->
      main c w [] = (Raise e, h5))
  /\ (forall path h4 h5,
      download_file url "/home/kai/projects/renew-thorium" w
        (h2 ++ announce c installed v url) = (Ok path, h4) ->
      install_deb path w h4 = (Ok tt, h5) ->
      main c w [] = (Ok tt, h5 ++ [EvPrint ("Installed " ++ path)])).
Proof.
  intros Hc Hprobe Hguard Hres Hv Hneq.
  rewrite (main_proceeds c w installed h1 url h2 v Hc Hprobe Hguard Hres Hv
             Hneq).
  unfold download_and_install. split; [| split].
  - intros e h4 Hdl. exact (bind_raise _ _ _ _ _ _ Hdl).
  - intros path h4 e h5 Hdl Hinst. rewrite (bind_ok _ _ _ _ _ _ Hdl).
    exact (bind_raise _ _ _ _ _ _ Hinst).
  - intros path h4 h5 Hdl Hinst.
    rewrite (bind_ok _ _ _ _ _ _ Hdl), (bind_ok _ _ _ _ _ _ Hinst).
    reflexivity.
Qed.

(** A refused download, an installation whose two tools fail, and a first
    installation that succeeds. *)
Lemma failures_after_resolution_are_fatal_witness :
  main Install world_download_refused []
  = (Raise HTTPError,
     [EvRun probe_argv; EvPrint "Thorium browser is not installed.";
      EvGet thorium_api false;
      EvPrint ("Latest .deb release URL: " ++ good_url);
      EvGet good_url true])
  /\ main Install world_install_broken []
     = (Raise CalledProcessError,
        [EvRun probe_argv; EvPrint "Thorium browser is not installed.";
         EvGet thorium_api false;
         EvPrint ("Latest .deb release URL: " ++ good_url);
         EvGet good_url true; EvOpen (download_path good_url);
         EvWrite (download_path good_url) "chunk-1";
         EvWrite (download_path good_url) "chunk-2";
         EvRun (nala_install (download_path good_url));
         install_fallback_notice;
         EvRun (dpkg_install (download_path good_url))])
  /\ main Install world_fresh_install []
     = (Ok tt,
        [EvRun probe_argv; EvPrint "Thorium browser is not installed.";
         EvGet thorium_api false;
         EvPrint ("Latest .deb release URL: " ++ good_url);
         EvGet good_url true; EvOpen (download_path good_url);
         EvWrite (download_path good_url) "chunk-1";
         EvWrite (download_path good_url) "chunk-2";
         EvRun (nala_install (download_path good_url))]
          ++ [EvPrint ("Installed " ++ download_path good_url)]).
Proof.
  split; [| split].
  - apply (proj1 (failures_after_resolution_are_fatal Install
                    world_download_refused None
                    [EvRun probe_argv;
                     EvPrint "Thorium browser is not installed."]
                    good_url
                    [EvRun probe_argv;
                     EvPrint "Thorium browser is not installed.";
                     EvGet thorium_api false]
                    "117.0.5938.157"
                    eq_refl eq_refl eq_refl eq_refl eq_refl eq_refl)).
    reflexivity.
  - apply (proj1 (proj2 (failures_after_resolution_are_fatal Install
                    world_install_broken None
                    [EvRun probe_argv;
                     EvPrint "Thorium browser is not installed."]
                    good_url
                    [EvRun probe_argv;
                     EvPrint "Thorium browser is not installed.";
                     EvGet thorium_api false]
                    "117.0.5938.157"
                    eq_refl eq_refl eq_refl eq_refl eq_refl eq_refl))
             (download_path good_url)
             [EvRun probe_argv; EvPrint "Thorium browser is not installed.";
              EvGet thorium_api false;
              EvPrint ("Latest .deb release URL: " ++ good_url);
              EvGet good_url true; EvOpen (download_path good_url);
              EvWrite (download_path good_url) "chunk-1";
              EvWrite (download_path good_url) "chunk-2"]);
      reflexivity.
  - apply (proj2 (proj2 (failures_after_resolution_are_fatal Install
                    world_fresh_install None
                    [EvRun probe_argv;
                     EvPrint "Thorium browser is not installed."]
                    good_url
                    [EvRun probe_argv;
                     EvPrint "Thorium browser is not installed.";
                     EvGet thorium_api false]
                    "117.0.5938.157"
                    eq_refl eq_refl eq_refl eq_refl eq_refl eq_refl))
             (download_path good_url)
             [EvRun probe_argv; EvPrint "Thorium browser is not installed.";
              EvGet thorium_api false;
              EvPrint ("Latest .deb release URL: " ++ good_url);
              EvGet good_url true; EvOpen (download_path good_url);
              EvWrite (download_path good_url) "chunk-1";
              EvWrite (download_path good_url) "chunk-2"]);
      reflexivity.
Defined.
